(** * Task manager: the persistence-and-query layer

    A shallow embedding of the task manager's Python sources:

    - [Py]          the operations of Python's [str] and [int] the code calls;
    - [Datetime]    [strftime] and [strptime] for the one format it uses;
    - [FileBacked]  [3-complete/TaskManager.py]: [TaskModel], the JSON-file
                    [TaskRepository] and the [TaskService] above it;
    - [Relational]  [4-add-pg-dbms]: [models/TaskModel.py] and
                    [services/TaskService.py], the service being stated over
                    the interface of its repository;
    - [Legacy]      [TaskManager.py], the dict-based manager behind the GUI:
                    its search; [TaskManager] and [TaskManagerGUI] have its
                    other methods and the handlers of its window;
    - [TasksList]   [1-python-tasks-list/TaskManager.py], the first version
                    of the manager.

    Text is modelled as [string], one [ascii] per code point: the model covers
    Python strings whose code points are below 256 (Latin-1).  Integers are
    [Z], as Python's are unbounded. *)

From Stdlib Require Import ZArith Lia List Ascii String Bool.
From stdpp Require Import base tactics option list strings gmap.

Local Open Scope string_scope.
Local Open Scope list_scope.
Local Open Scope Z_scope.

(** ** Python text and integers *)

Module Py.

Definition chars (s : string) : list ascii := list_ascii_of_string s.
Definition str (l : list ascii) : string := string_of_list_ascii l.

Definition code (c : ascii) : Z := Z.of_N (N_of_ascii c).

(** [str.isspace] on one code point below 256: TAB..CR, FS..US, space,
    NEL and the no-break space. *)
Definition is_space (c : ascii) : bool :=
  let n := code c in
  ((9 <=? n) && (n <=? 13)) || ((28 <=? n) && (n <=? 32))
  || (n =? 133) || (n =? 160).

Fixpoint lstrip_chars (l : list ascii) : list ascii :=
  match l with
  | c :: l' => if is_space c then lstrip_chars l' else l
  | [] => []
  end.

Definition rstrip_chars (l : list ascii) : list ascii :=
  reverse (lstrip_chars (reverse l)).

Definition strip_chars (l : list ascii) : list ascii :=
  rstrip_chars (lstrip_chars l).

(** [s.strip()] *)
Definition strip (s : string) : string := str (strip_chars (chars s)).

(** [len(s)] *)
Definition len (s : string) : Z := Z.of_nat (List.length (chars s)).

(** [not s]: a string is falsy exactly when it is empty. *)
Definition falsy (s : string) : bool :=
  match s with EmptyString => true | String _ _ => false end.

(** [str.lower] on one code point below 256: A..Z and the accented
    capitals (all of 192..222 but the multiplication sign) move up by 32. *)
Definition lower_char (c : ascii) : ascii :=
  let n := code c in
  if ((65 <=? n) && (n <=? 90))
     || ((192 <=? n) && (n <=? 222) && negb (n =? 215))
  then ascii_of_N (Z.to_N (n + 32)) else c.

(** [s.lower()] *)
Definition lower (s : string) : string := str (lower_char <$> chars s).

Fixpoint startswith_chars (p l : list ascii) : bool :=
  match p, l with
  | [], _ => true
  | _ :: _, [] => false
  | a :: p', b :: l' => bool_decide (a = b) && startswith_chars p' l'
  end.

Fixpoint contains_chars (p l : list ascii) : bool :=
  startswith_chars p l ||
  match l with
  | [] => false
  | _ :: l' => contains_chars p l'
  end.

(** [p in s] on strings: [p] occurs in [s] as a contiguous run. *)
Definition contains (p s : string) : bool := contains_chars (chars p) (chars s).

(** *** [int(s)] on text

    Surrounding white space is skipped ([int] knows TAB..CR, the space,
    and the two white code points above 127), then an optional sign, then
    decimal digits in which single underscores may separate digits.
    Anything else is a [ValueError], here [None].  (The bound recent
    versions put on the number of digits is left out.) *)

Definition int_space (c : ascii) : bool :=
  let n := code c in
  ((9 <=? n) && (n <=? 13)) || (n =? 32) || (n =? 133) || (n =? 160).

Fixpoint int_lstrip (l : list ascii) : list ascii :=
  match l with
  | c :: l' => if int_space c then int_lstrip l' else l
  | [] => []
  end.

Definition digit (c : ascii) : option Z :=
  let n := code c in
  if (48 <=? n) && (n <=? 57) then Some (n - 48) else None.

Fixpoint digits (acc : Z) (after_digit : bool) (l : list ascii) : option Z :=
  match l with
  | [] => if after_digit then Some acc else None
  | c :: l' =>
      match digit c with
      | Some d => digits (10 * acc + d) true l'
      | None =>
          if bool_decide (c = "_"%char) && after_digit
          then digits acc false l' else None
      end
  end.

Definition int_chars (l : list ascii) : option Z :=
  match reverse (int_lstrip (reverse (int_lstrip l))) with
  | c :: l' =>
      if bool_decide (c = "-"%char) then Z.opp <$> digits 0 false l'
      else if bool_decide (c = "+"%char) then digits 0 false l'
      else digits 0 false (c :: l')
  | [] => None
  end.

Definition int_of_str (s : string) : option Z := int_chars (chars s).

(** An identifier as it reaches the service: the text typed at the
    console, or a number passed by a caller. *)
Inductive ident : Type :=
| Text (s : string)
| Number (n : Z).

(** [int(x)]; [None] stands for the [ValueError]. *)
Definition int (x : ident) : option Z :=
  match x with
  | Text s => int_of_str s
  | Number n => Some n
  end.

End Py.

(** ** Errors and outcomes

    Every failure the code signals is a [TaskManagerException]; the kinds
    differ by the message only.  One constructor stands for each message. *)

Inductive TaskManagerException : Type :=
| TitleEmpty                       (* "Task title cannot be empty" *)
| TitleTooLong                     (* "Task title cannot exceed 50 characters" *)
| DescriptionEmpty                 (* "Task description cannot be empty" *)
| IdNotNumber                      (* "Task ID must be a number" *)
| TaskNotFound (task_id : Z)       (* f"Task with ID {task_id} not found" *)
| Failed (what cause : string).    (* f"Failed to {what}: {str(e)}" *)

(** The names the design gives to the three kinds of failure. *)
Inductive error_kind : Type := ValidationError | NotFoundError | PersistenceError.

Definition kind (e : TaskManagerException) : error_kind :=
  match e with
  | TitleEmpty | TitleTooLong | DescriptionEmpty | IdNotNumber => ValidationError
  | TaskNotFound _ => NotFoundError
  | Failed _ _ => PersistenceError
  end.

(** What a call does: it returns a value or raises. *)
Inductive outcome (A : Type) : Type :=
| Returned (a : A)
| Raised (e : TaskManagerException).
Arguments Returned {A} a.
Arguments Raised {A} e.

(** A method of an object with state [S]: it may change the state and then
    returns or raises.  The changes made before a [raise] stay. *)
Definition M (S A : Type) : Type := S → S * outcome A.

#[global] Instance M_ret {S : Type} : MRet (M S) := λ A a s, (s, Returned a).
#[global] Instance M_bind {S : Type} : MBind (M S) := λ A B f m s,
  match m s with
  | (s', Returned a) => f a s'
  | (s', Raised e) => (s', Raised e)
  end.

Definition raise {S A : Type} (e : TaskManagerException) : M S A :=
  λ s, (s, Raised e).

(** ** The layered, file-backed variant: [3-complete/TaskManager.py] *)

Module FileBacked.

(** What the process sees of its surroundings during one call: the clock,
    already formatted by [strftime("%Y-%m-%d %H:%M:%S")], and whether
    writing the task file raises (and with which text).  A write that
    raises is taken to leave the file as it was. *)
Record World : Type := {
  now : string;
  write_error : option string
}.

Record TaskModel : Type := {
  task_id : Z;
  title : string;
  description : string;
  status : string;
  created_date : string
}.

(** [task.status = status] *)
Definition set_status (st : string) (t : TaskModel) : TaskModel :=
  {| task_id := task_id t; title := title t; description := description t;
     status := st; created_date := created_date t |}.

(** The values a serialized task holds. *)
Inductive value : Type :=
| VInt (n : Z)
| VStr (s : string).

Definition as_int (v : value) : option Z :=
  match v with VInt n => Some n | VStr _ => None end.
Definition as_str (v : value) : option string :=
  match v with VStr s => Some s | VInt _ => None end.

Section Model.
Variable w : World.

(** [TaskModel.__init__]: [status] defaults to "Pending"; a missing or
    falsy [created_date] is replaced by the clock. *)
Definition init (task_id : Z) (title description : string)
    (status : option string) (created_date : option string) : TaskModel :=
  {| task_id := task_id; title := title; description := description;
     status := default "Pending" status;
     created_date :=
       match created_date with
       | Some d => if Py.falsy d then now w else d
       | None => now w
       end |}.

Definition to_dict (t : TaskModel) : gmap string value :=
  <["id" := VInt (task_id t)]>
  (<["title" := VStr (title t)]>
  (<["description" := VStr (description t)]>
  (<["status" := VStr (status t)]>
  (<["created_date" := VStr (created_date t)]> ∅)))).

(** [TaskModel.from_dict]; [None] when a key is missing (the [KeyError])
    or holds a value of the other type. *)
Definition from_dict (d : gmap string value) : option TaskModel :=
  i ← d !! "id" ≫= as_int;
  t ← d !! "title" ≫= as_str;
  ds ← d !! "description" ≫= as_str;
  st ← d !! "status" ≫= as_str;
  cd ← d !! "created_date" ≫= as_str;
  Some (init i t ds (Some st) (Some cd)).
End Model.

(** *** [TaskRepository] *)

Module TaskRepository.

(** The repository object and the file it mirrors: [tasks] is
    [self.tasks], [file] the content of [self.file_name] ([None] while the
    file does not exist). *)
Record state : Type := {
  tasks : list TaskModel;
  file : option (list (gmap string value))
}.

Definition with_tasks (l : list TaskModel) (s : state) : state :=
  {| tasks := l; file := file s |}.

Definition read_tasks : M state (list TaskModel) :=
  λ s, (s, Returned (tasks s)).
Definition write_tasks (l : list TaskModel) : M state unit :=
  λ s, (with_tasks l s, Returned ()).

(** The position of the first task with the given id: the value of [i]
    at which the loops [for i, task in enumerate(self.tasks)] and
    [for task in self.tasks] stop. *)
Fixpoint index_of (task_id : Z) (l : list TaskModel) : option nat :=
  match l with
  | [] => None
  | t :: l' =>
      if bool_decide (FileBacked.task_id t = task_id) then Some 0%nat
      else S <$> index_of task_id l'
  end.

(** [max(xs)] for a non-empty sequence [x :: xs]. *)
Definition py_max (x : Z) (xs : list Z) : Z := fold_left Z.max xs x.

Section Methods.
Variable w : World.

(** [load_tasks], as [__init__] runs it on [self.tasks = []]: a file
    that does not parse leaves the list empty. *)
Definition load_tasks (f : option (list (gmap string value))) : state :=
  match f with
  | Some ds =>
      {| tasks := default [] (mapM (from_dict w) ds); file := f |}
  | None => {| tasks := []; file := f |}
  end.

Definition save_tasks : M state unit := λ s,
  match write_error w with
  | None =>
      ({| tasks := tasks s; file := Some (to_dict <$> tasks s) |},
       Returned ())
  | Some cause => (s, Raised (Failed "save tasks" cause))
  end.

Definition get_next_id : M state Z :=
  l ← read_tasks;
  match l with
  | [] => mret 1
  | t :: l' => mret (py_max (task_id t) (task_id <$> l') + 1)
  end.

Definition add_task (title description : string) : M state TaskModel :=
  task_id ← get_next_id;
  let task := init w task_id title description None None in
  l ← read_tasks;
  write_tasks (l ++ [task]);;
  save_tasks;;
  mret task.

Definition get_all_tasks : M state (list TaskModel) := read_tasks.

Definition find_task_by_id (task_id : Z) : M state (option TaskModel) :=
  l ← read_tasks;
  mret (i ← index_of task_id l; l !! i).

Definition update_task (task : TaskModel) : M state bool :=
  l ← read_tasks;
  match index_of (task_id task) l with
  | Some i =>
      write_tasks (<[i := task]> l);;
      save_tasks;;
      mret true
  | None => mret false
  end.

Definition delete_task (task_id : Z) : M state (option TaskModel) :=
  l ← read_tasks;
  match index_of task_id l with
  | Some i =>
      let removed := l !! i in
      write_tasks (delete i l);;
      save_tasks;;
      mret removed
  | None => mret None
  end.

(** An assignment [task.status = st] made through the object that
    [find_task_by_id task_id] returned.  That object is the very one
    [self.tasks] holds, so the list sees the assignment at once. *)
Definition assign_status (task_id : Z) (st : string) : M state unit :=
  l ← read_tasks;
  match index_of task_id l with
  | Some i => write_tasks (alter (set_status st) i l)
  | None => mret ()
  end.
End Methods.

End TaskRepository.

(** *** [TaskService] *)

Module TaskService.
Import TaskRepository.

Section Methods.
Variable w : World.

Definition add_task (title description : string) : M state TaskModel :=
  if Py.falsy title || Py.falsy (Py.strip title) then raise TitleEmpty
  else if 50 <? Py.len title then raise TitleTooLong
  else if Py.falsy description || Py.falsy (Py.strip description)
  then raise DescriptionEmpty
  else TaskRepository.add_task w (Py.strip title) (Py.strip description).

Definition list_tasks : M state (list TaskModel) := get_all_tasks.

Definition mark_complete (task_id : Py.ident) : M state TaskModel :=
  match Py.int task_id with
  | None => raise IdNotNumber
  | Some task_id =>
      found ← find_task_by_id task_id;
      match found with
      | None => raise (TaskNotFound task_id)
      | Some task =>
          assign_status task_id "Completed";;
          let task := set_status "Completed" task in
          update_task w task;;
          mret task
      end
  end.

Definition delete_task (task_id : Py.ident) : M state TaskModel :=
  match Py.int task_id with
  | None => raise IdNotNumber
  | Some task_id =>
      removed ← TaskRepository.delete_task w task_id;
      match removed with
      | None => raise (TaskNotFound task_id)
      | Some task => mret task
      end
  end.

Definition search_tasks (keyword : string) : M state (list TaskModel) :=
  if Py.falsy keyword || Py.falsy (Py.strip keyword) then mret []
  else
    let keyword := Py.strip (Py.lower keyword) in
    l ← get_all_tasks;
    mret (filter (λ task,
            Is_true (Py.contains keyword (Py.lower (title task))
                     || Py.contains keyword (Py.lower (description task))))
            l).
End Methods.

End TaskService.

End FileBacked.

(** ** Python's [datetime], for the one format the code uses

    [strftime] and [strptime] are modelled for the format
    ["%Y-%m-%d %H:%M:%S"] only.  [strptime] follows the regular expression
    the library builds for it: a year of four digits; month, day, hour,
    minute and second of one or two digits, in range; a day also as a space
    and one digit; white space of any length between date and time;
    nothing before or after.  A value that is not a date of the calendar is
    refused, as the constructor of [datetime] refuses it. *)

Module Datetime.

Record datetime : Type := {
  year : Z; month : Z; day : Z;
  hour : Z; minute : Z; second : Z; microsecond : Z
}.

Definition leap (y : Z) : bool :=
  ((y mod 4 =? 0) && negb (y mod 100 =? 0)) || (y mod 400 =? 0).

Definition days_in_month (y m : Z) : Z :=
  if m =? 2 then (if leap y then 29 else 28)
  else if (m =? 4) || (m =? 6) || (m =? 9) || (m =? 11) then 30
  else 31.

Definition between (lo n hi : Z) : bool := (lo <=? n) && (n <=? hi).

(** The values the constructor [datetime(...)] accepts. *)
Definition valid (d : datetime) : bool :=
  between 1 (year d) 9999 && between 1 (month d) 12
  && between 1 (day d) (days_in_month (year d) (month d))
  && between 0 (hour d) 23 && between 0 (minute d) 59
  && between 0 (second d) 59 && between 0 (microsecond d) 999999.

Definition digit_char (n : Z) : ascii := ascii_of_N (Z.to_N (48 + n)).

(** [%02d] and [%04d] on a number that fits. *)
Definition pad2 (n : Z) : list ascii :=
  [digit_char (n / 10); digit_char (n mod 10)].

Definition pad4 (n : Z) : list ascii :=
  [digit_char (n / 1000); digit_char (n / 100 mod 10);
   digit_char (n / 10 mod 10); digit_char (n mod 10)].

(** [d.strftime("%Y-%m-%d %H:%M:%S")].  (C libraries differ on years below
    1000: some pad them with zeros, as here, some do not.) *)
Definition strftime_chars (d : datetime) : list ascii :=
  pad4 (year d) ++ "-"%char :: pad2 (month d) ++ "-"%char :: pad2 (day d)
  ++ " "%char :: pad2 (hour d) ++ ":"%char :: pad2 (minute d)
  ++ ":"%char :: pad2 (second d).

Definition strftime (d : datetime) : string := Py.str (strftime_chars d).

(** One or two leading digits and their value. *)
Definition two_digits (l : list ascii) : option (Z * list ascii) :=
  match l with
  | a :: l1 =>
      x ← Py.digit a;
      match l1 with
      | b :: l2 =>
          match Py.digit b with
          | Some y => Some (10 * x + y, l2)
          | None => Some (x, l1)
          end
      | [] => Some (x, [])
      end
  | [] => None
  end.

Definition four_digits (l : list ascii) : option (Z * list ascii) :=
  match l with
  | a :: b :: c :: d :: rest =>
      x ← Py.digit a; y ← Py.digit b; z ← Py.digit c; u ← Py.digit d;
      Some (1000 * x + 100 * y + 10 * z + u, rest)
  | _ => None
  end.

(** The day: two digits, one digit, or a space and one digit. *)
Definition day_field (l : list ascii) : option (Z * list ascii) :=
  match l with
  | a :: b :: rest =>
      if bool_decide (a = " "%char)
      then x ← Py.digit b; Some (x, rest)
      else two_digits l
  | _ => two_digits l
  end.

Definition expect (c : ascii) (l : list ascii) : option (list ascii) :=
  match l with
  | a :: rest => if bool_decide (a = c) then Some rest else None
  | [] => None
  end.

(** White space, at least one character of it. *)
Definition spaces (l : list ascii) : option (list ascii) :=
  match l with
  | a :: rest => if Py.is_space a then Some (Py.lstrip_chars rest) else None
  | [] => None
  end.

Definition strptime_chars (l : list ascii) : option datetime :=
  '(y, l) ← four_digits l;
  l ← expect "-"%char l;
  '(m, l) ← two_digits l;
  l ← expect "-"%char l;
  '(d, l) ← day_field l;
  l ← spaces l;
  '(hh, l) ← two_digits l;
  l ← expect ":"%char l;
  '(mm, l) ← two_digits l;
  l ← expect ":"%char l;
  '(ss, l) ← two_digits l;
  let r := {| year := y; month := m; day := d;
              hour := hh; minute := mm; second := ss; microsecond := 0 |} in
  if bool_decide (l = []) && valid r then Some r else None.

(** [datetime.strptime(s, "%Y-%m-%d %H:%M:%S")]; [None] stands for the
    [ValueError]. *)
Definition strptime (s : string) : option datetime :=
  strptime_chars (Py.chars s).

End Datetime.

(** ** The relational variant: [4-add-pg-dbms]

    [models/TaskModel.py] and [services/TaskService.py].  The service sees
    its repository through the methods it calls; what the repository does
    with them (SQL against PostgreSQL) is left open. *)

Module Relational.
Import Datetime.

(** What [created_date] holds: a [datetime], or a [str]. *)
Inductive timestamp : Type :=
| Moment (d : datetime)
| Written (s : string).

Record TaskModel : Type := {
  task_id : Z;
  title : string;
  description : string;
  status : string;
  created_date : timestamp
}.

Definition set_status (st : string) (t : TaskModel) : TaskModel :=
  {| task_id := task_id t; title := title t; description := description t;
     status := st; created_date := created_date t |}.

(** The values of a row or of a serialized task. *)
Inductive value : Type :=
| VInt (n : Z)
| VStr (s : string)
| VDate (d : datetime).

Definition as_int (v : value) : option Z :=
  match v with VInt n => Some n | _ => None end.
Definition as_str (v : value) : option string :=
  match v with VStr s => Some s | _ => None end.

Section Model.
Variable now : datetime.

(** [TaskModel.__init__]: a missing or falsy [created_date] is replaced by
    [datetime.now()]; a [datetime] is never falsy. *)
Definition init (task_id : Z) (title description : string)
    (status : option string) (created_date : option timestamp) : TaskModel :=
  {| task_id := task_id; title := title; description := description;
     status := default "Pending" status;
     created_date :=
       match created_date with
       | Some (Moment d) => Moment d
       | Some (Written s) => if Py.falsy s then Moment now else Written s
       | None => Moment now
       end |}.

Definition to_dict (t : TaskModel) : gmap string value :=
  <["id" := VInt (task_id t)]>
  (<["title" := VStr (title t)]>
  (<["description" := VStr (description t)]>
  (<["status" := VStr (status t)]>
  (<["created_date" :=
       VStr match created_date t with
            | Moment d => strftime d
            | Written s => s
            end]> ∅)))).

(** [TaskModel.from_dict]; [None] when it raises (a key is missing, the text
    of the date does not parse) or a value is of a type the record cannot
    hold. *)
Definition from_dict (d : gmap string value) : option TaskModel :=
  cd ← d !! "created_date";
  cd ← match cd with
       | VStr s => Moment <$> strptime s
       | VDate dt => Some (Moment dt)
       | VInt _ => None
       end;
  i ← d !! "id" ≫= as_int;
  t ← d !! "title" ≫= as_str;
  ds ← d !! "description" ≫= as_str;
  st ← d !! "status" ≫= as_str;
  Some (init i t ds (Some st) (Some cd)).
End Model.

(** The counts [get_task_statistics] returns. *)
Record statistics : Type := {
  total_tasks : Z;
  pending_tasks : Z;
  completed_tasks : Z;
  tasks_today : Z
}.

(** The methods of [repositories/TaskRepository.py], over a database of
    type [DB]. *)
Class TaskRepository (DB : Type) : Type := {
  add_task : string → string → M DB TaskModel;
  get_all_tasks : M DB (list TaskModel);
  find_task_by_id : Z → M DB (option TaskModel);
  update_task : TaskModel → M DB bool;
  delete_task : Z → M DB (option TaskModel);
  search_tasks : string → M DB (list TaskModel);
  get_task_statistics : M DB statistics
}.

(** The repository while the database cannot be reached: every method
    ends in its [except Exception as e] clause and raises
    [TaskManagerException(f"Failed to ...: {str(e)}")]. *)
Definition offline (cause : string) : TaskRepository unit := {|
  add_task _ _ := raise (Failed "add task" cause);
  get_all_tasks := raise (Failed "retrieve tasks" cause);
  find_task_by_id _ := raise (Failed "find task" cause);
  update_task _ := raise (Failed "update task" cause);
  delete_task _ := raise (Failed "delete task" cause);
  search_tasks _ := raise (Failed "search tasks" cause);
  get_task_statistics := raise (Failed "get statistics" cause)
|}.

Module TaskService.
Section Methods.
Context {DB : Type} {repository : TaskRepository DB}.

Definition add_task (title description : string) : M DB TaskModel :=
  if Py.falsy title || Py.falsy (Py.strip title) then raise TitleEmpty
  else if 50 <? Py.len title then raise TitleTooLong
  else if Py.falsy description || Py.falsy (Py.strip description)
  then raise DescriptionEmpty
  else Relational.add_task (Py.strip title) (Py.strip description).

Definition list_tasks : M DB (list TaskModel) := get_all_tasks.

Definition mark_complete (task_id : Py.ident) : M DB TaskModel :=
  match Py.int task_id with
  | None => raise IdNotNumber
  | Some task_id =>
      found ← find_task_by_id task_id;
      match found with
      | None => raise (TaskNotFound task_id)
      | Some task =>
          let task := set_status "Completed" task in
          update_task task;;
          mret task
      end
  end.

Definition delete_task (task_id : Py.ident) : M DB TaskModel :=
  match Py.int task_id with
  | None => raise IdNotNumber
  | Some task_id =>
      removed ← Relational.delete_task task_id;
      match removed with
      | None => raise (TaskNotFound task_id)
      | Some task => mret task
      end
  end.

Definition search_tasks (keyword : string) : M DB (list TaskModel) :=
  if Py.falsy keyword || Py.falsy (Py.strip keyword) then mret []
  else Relational.search_tasks (Py.strip keyword).

Definition get_statistics : M DB statistics := get_task_statistics.
End Methods.
End TaskService.

End Relational.

(** ** The dict-based manager: [TaskManager.py] *)

Module Legacy.

(** A task is a dict with the five keys [add_task] gives it; one field
    stands for each key. *)
Record task : Type := {
  id : Z;
  title : string;
  description : string;
  status : string;
  created_date : string
}.

(** The loop of [TaskManager.search_tasks] over [self.tasks], [keyword]
    already in lower case; [status_filter] is [None] for every status. *)
Fixpoint search_loop (keyword : string) (status_filter : option string)
    (tasks : list task) : list task :=
  match tasks with
  | [] => []
  | task :: rest =>
      if Py.contains keyword (Py.lower (title task))
         || Py.contains keyword (Py.lower (description task))
      then
        if match status_filter with
           | None => true
           | Some st => bool_decide (status task = st)
           end
        then task :: search_loop keyword status_filter rest
        else search_loop keyword status_filter rest
      else search_loop keyword status_filter rest
  end.

(** [TaskManager.search_tasks(keyword, status_filter)] *)
Definition search_tasks (keyword : string) (status_filter : option string)
    (tasks : list task) : list task :=
  search_loop (Py.lower keyword) status_filter tasks.

End Legacy.

(** ** Notions the statements use *)

(** Empty or made of white space only. *)
Definition blank (s : string) : Prop :=
  Forall (λ c, Py.is_space c = true) (Py.chars s).

(** Equal up to the case of letters. *)
Definition same_ignoring_case (a b : list ascii) : Prop :=
  Py.lower_char <$> a = Py.lower_char <$> b.

(** [keyword] occurs in [text] as a contiguous run, up to the case of
    letters. *)
Definition occurs_ignoring_case (keyword text : string) : Prop :=
  ∃ pre mid post : list ascii,
    Py.chars text = (pre ++ mid ++ post)%list
    ∧ same_ignoring_case mid (Py.chars keyword).

(** A title and a description the service accepts. *)
Definition acceptable (title description : string) : Prop :=
  ¬ blank title ∧ Py.len title ≤ 50 ∧ ¬ blank description.

(** What [search(keyword, status_filter)] is to select: the keyword occurs
    in the title or in the description, up to case, and the status is the
    one asked for, if one is. *)
Definition selected (keyword : string) (status_filter : option string)
    (t : Legacy.task) : Prop :=
  (occurs_ignoring_case keyword (Legacy.title t)
   ∨ occurs_ignoring_case keyword (Legacy.description t))
  ∧ ∀ st, status_filter = Some st → Legacy.status t = st.

Definition is_digit (c : ascii) : bool := bool_decide (is_Some (Py.digit c)).

(** A text of the form [YYYY-MM-DD HH:MM:SS]. *)
Definition second_resolution (s : string) : bool :=
  match Py.chars s with
  | [y1; y2; y3; y4; s1; m1; m2; s2; d1; d2; s3; h1; h2; s4; n1; n2; s5; c1; c2] =>
      forallb is_digit [y1; y2; y3; y4; m1; m2; d1; d2; h1; h2; n1; n2; c1; c2]
      && bool_decide (s1 = "-"%char) && bool_decide (s2 = "-"%char)
      && bool_decide (s3 = " "%char)
      && bool_decide (s4 = ":"%char) && bool_decide (s5 = ":"%char)
  | _ => false
  end.

Module RelationalNotions.
Import Datetime Relational.

(** A record as the design describes it, in the relational variant: title
    and description not empty, one of the two statuses, and for creation
    time a date of the calendar with a year of four digits and no
    fraction of a second. *)
Definition valid_record (r : TaskModel) : Prop :=
  title r ≠ "" ∧ description r ≠ ""
  ∧ (status r = "Pending" ∨ status r = "Completed")
  ∧ ∃ d, created_date r = Moment d
         ∧ valid d = true ∧ 1000 ≤ year d ∧ microsecond d = 0.

End RelationalNotions.

Module FileBackedNotions.
Import FileBacked FileBacked.TaskRepository.

Definition ids (l : list TaskModel) : list Z := task_id <$> l.

(** No two records of the store share an id. *)
Definition unique_ids (s : state) : Prop := NoDup (ids (tasks s)).



(** [m] is the greatest id in [l], or 0 when [l] is empty. *)
Definition max_existing_id (l : list TaskModel) (m : Z) : Prop :=
  match l with
  | [] => m = 0
  | _ :: _ => m ∈ ids l ∧ ∀ i, i ∈ ids l → i ≤ m
  end.

(** The record with id [i] is live in [s]. *)
Definition live (i : Z) (s : state) : Prop := i ∈ ids (tasks s).

(** The status of the first record with id [i], as the store holds it. *)
Definition status_of (i : Z) (s : state) : option string :=
  status <$> (n ← index_of i (tasks s); tasks s !! n).

(** A record as the design describes it: title and description not
    empty, one of the two statuses, a creation time of the form
    [YYYY-MM-DD HH:MM:SS]. *)
Definition valid_record (r : TaskModel) : Prop :=
  title r ≠ "" ∧ description r ≠ ""
  ∧ (status r = "Pending" ∨ status r = "Completed")
  ∧ second_resolution (created_date r) = true.

(** One call of a public method of the repository or of the service, or a
    restart of the process over the file left behind. *)
Inductive step (s : state) : state → Prop :=
| step_repo_add w title description :
    step s (TaskRepository.add_task w title description s).1
| step_repo_update w task :
    step s (TaskRepository.update_task w task s).1
| step_repo_delete w i :
    step s (TaskRepository.delete_task w i s).1
| step_add w title description :
    step s (TaskService.add_task w title description s).1
| step_mark_complete w x :
    step s (TaskService.mark_complete w x s).1
| step_delete w x :
    step s (TaskService.delete_task w x s).1
| step_search keyword :
    step s (TaskService.search_tasks keyword s).1
| step_restart w :
    step s (load_tasks w (file s)).

(** The states a repository goes through, created where no task file
    exists yet. *)
Inductive reachable : state → Prop :=
| reachable_new w : reachable (load_tasks w None)
| reachable_step s s' : reachable s → step s s' → reachable s'.

End FileBackedNotions.

(** ** Sample data

    The worlds and stores the examples below run in. *)

Module Sample.
Import FileBacked FileBacked.TaskRepository.

Definition noon : World :=
  {| now := "2025-03-01 12:00:00"; write_error := None |}.

Definition disk_full : World :=
  {| now := "2025-03-01 12:00:05";
     write_error := Some "No space left on device" |}.

Definition empty : state := load_tasks noon None.

Definition milk : TaskModel :=
  {| task_id := 1; title := "Buy milk"; description := "Get 2% milk";
     status := "Pending"; created_date := "2025-03-01 09:30:00" |}.

Definition report : TaskModel :=
  {| task_id := 2; title := "Write report"; description := "Quarterly report";
     status := "Completed"; created_date := "2025-03-01 09:31:00" |}.

Definition two_tasks : state :=
  {| tasks := [milk; report]; file := Some [to_dict milk; to_dict report] |}.

Definition legacy_milk : Legacy.task :=
  {| Legacy.id := 1; Legacy.title := "Buy milk";
     Legacy.description := "Get 2% milk"; Legacy.status := "Pending";
     Legacy.created_date := "2025-03-01 09:30:00" |}.

Definition legacy_report : Legacy.task :=
  {| Legacy.id := 2; Legacy.title := "Write report";
     Legacy.description := "Quarterly report"; Legacy.status := "Completed";
     Legacy.created_date := "2025-03-01 09:31:00" |}.

Definition row_time : Datetime.datetime :=
  {| Datetime.year := 2025; Datetime.month := 3; Datetime.day := 1;
     Datetime.hour := 9; Datetime.minute := 31; Datetime.second := 0;
     Datetime.microsecond := 0 |}.

(** A row as it comes back from [from_dict], and the same row as the
    database made it, with the fraction of a second of its clock. *)
Definition row : Relational.TaskModel :=
  {| Relational.task_id := 2; Relational.title := "Write report";
     Relational.description := "Quarterly report";
     Relational.status := "Completed";
     Relational.created_date := Relational.Moment row_time |}.

Definition fresh_row : Relational.TaskModel :=
  {| Relational.task_id := 2; Relational.title := "Write report";
     Relational.description := "Quarterly report";
     Relational.status := "Completed";
     Relational.created_date :=
       Relational.Moment
         {| Datetime.year := 2025; Datetime.month := 3; Datetime.day := 1;
            Datetime.hour := 9; Datetime.minute := 31; Datetime.second := 0;
            Datetime.microsecond := 482113 |} |}.

(** A title of 51 characters, one letter and fifty spaces. *)
Definition padded_title : string :=
  "a                                                  ".
End Sample.

(** ** More of Python: [str(n)] and [split] *)

Module PyFormat.

(** The decimal digits of [n >= 0], most significant first, put before
    [acc]; [fuel] bounds the number of digits. *)
Fixpoint decimal (fuel : nat) (n : Z) (acc : list ascii) : list ascii :=
  match fuel with
  | O => acc
  | S fuel' =>
      let acc' := Datetime.digit_char (n mod 10) :: acc in
      if n <? 10 then acc' else decimal fuel' (n / 10) acc'
  end.

Definition decimal_chars (n : Z) : list ascii :=
  decimal (S (Z.to_nat (Z.log2 n))) n [].

(** [str(n)] for an integer [n], which an f-string gives as well.  (The
    bound recent versions put on the number of digits is left out, as it
    is for [int].) *)
Definition str_of_int_chars (n : Z) : list ascii :=
  if n <? 0 then "-"%char :: decimal_chars (- n) else decimal_chars n.

Definition str_of_int (n : Z) : string := Py.str (str_of_int_chars n).

(** [s.split(c)[0]]: what comes before the first [c], all of [s] when
    there is none. *)
Fixpoint before (c : ascii) (l : list ascii) : list ascii :=
  match l with
  | [] => []
  | a :: l' => if bool_decide (a = c) then [] else a :: before c l'
  end.

End PyFormat.

(** ** The dict-based manager, whole: [TaskManager.py]

    [TaskManager] keeps its tasks as dicts ([Legacy.task]) and writes them
    to the file after every change.  [save_tasks] has no [try]: a write that
    fails leaves the method with the [OSError].  [TaskManagerGUI] is the
    window above it; of the widgets the model keeps what the methods read
    and write. *)

Module TaskManager.
Import Legacy.

(** [self.tasks], and the content of [self.filename]: [None] while the file
    does not exist, [Some None] when it does not parse. *)
Record state : Type := {
  tasks : list task;
  file : option (option (list task))
}.

(** How a method ends. *)
Inductive completion : Type :=
| Finished
| OSError (cause : string).

(** The loops [for task in self.tasks: if task["id"] == task_id: ...;
    break]: [f] is applied to the first task with the id. *)
Fixpoint on_first (task_id : Z) (f : task → task) (l : list task) : list task :=
  match l with
  | [] => []
  | t :: l' =>
      if bool_decide (id t = task_id) then f t :: l'
      else t :: on_first task_id f l'
  end.

Definition load_tasks (f : option (option (list task))) : state :=
  match f with
  | Some (Some l) => {| tasks := l; file := f |}
  | _ => {| tasks := []; file := f |}
  end.

Definition get_next_id (s : state) : Z :=
  match tasks s with
  | [] => 1
  | t :: l => FileBacked.TaskRepository.py_max (id t) (id <$> l) + 1
  end.

Section Methods.
Variable w : FileBacked.World.

Definition save_tasks (s : state) : state * completion :=
  match FileBacked.write_error w with
  | None => ({| tasks := tasks s; file := Some (Some (tasks s)) |}, Finished)
  | Some cause => (s, OSError cause)
  end.

Definition add_task (title description : string) (s : state)
    : state * completion :=
  let task := {| id := get_next_id s; title := title;
                 description := description; status := "Pending";
                 created_date := FileBacked.now w |} in
  save_tasks {| tasks := tasks s ++ [task]; file := file s |}.

Definition delete_task (task_id : Z) (s : state) : state * completion :=
  save_tasks {| tasks := filter (λ t, id t ≠ task_id) (tasks s);
                file := file s |}.

Definition mark_complete (task_id : Z) (s : state) : state * completion :=
  save_tasks
    {| tasks := on_first task_id
                  (λ t, {| id := id t; title := title t;
                           description := description t;
                           status := "Completed";
                           created_date := created_date t |})
                  (tasks s);
       file := file s |}.

Definition edit_task (task_id : Z) (new_title new_description : string)
    (s : state) : state * completion :=
  save_tasks
    {| tasks := on_first task_id
                  (λ t, {| id := id t; title := new_title;
                           description := new_description;
                           status := status t;
                           created_date := created_date t |})
                  (tasks s);
       file := file s |}.
End Methods.

Definition search_tasks (keyword : string) (status_filter : option string)
    (s : state) : list task :=
  Legacy.search_tasks keyword status_filter (tasks s).

End TaskManager.

Module TaskManagerGUI.
Import Legacy.

(** The window: the manager, the text of the search box, the choice of the
    status menu, the lines of the list box with the selected line, and the
    text of the description box. *)
Record gui : Type := {
  task_manager : TaskManager.state;
  search_entry : string;
  status_var : string;
  task_listbox : list string;
  curselection : option nat;
  description_text : string
}.

(** [f"[{task['id']}] {task['title']} - {task['status']}"] *)
Definition display (t : task) : string :=
  "[" +:+ PyFormat.str_of_int (id t) +:+ "] " +:+ title t +:+ " - " +:+ status t.

(** [int(task_str.split(']')[0][1:])]; [None] stands for the
    [ValueError]. *)
Definition id_of_line (task_str : string) : option Z :=
  Py.int_chars (drop 1 (PyFormat.before "]"%char (Py.chars task_str))).

(** What [get_selected_task_id] gives. *)
Inductive selected : Type :=
| NoSelection
| Id (task_id : Z)
| ValueError.

Definition get_selected_task_id (g : gui) : selected :=
  match curselection g with
  | None => NoSelection
  | Some n =>
      match id_of_line (default "" (task_listbox g !! n)) with
      | Some task_id => Id task_id
      | None => ValueError
      end
  end.

(** [next((t for t in self.task_manager.tasks if t["id"] == task_id), None)] *)
Definition first_with_id (task_id : Z) (l : list task) : option task :=
  head (filter (λ t, id t = task_id) l).

(** [show_description]; [None] when [int] raises. *)
Definition show_description (g : gui) : option gui :=
  match curselection g with
  | None =>
      Some {| task_manager := task_manager g; search_entry := search_entry g;
              status_var := status_var g; task_listbox := task_listbox g;
              curselection := curselection g; description_text := "" |}
  | Some n =>
      task_id ← id_of_line (default "" (task_listbox g !! n));
      match first_with_id task_id (TaskManager.tasks (task_manager g)) with
      | Some t =>
          Some {| task_manager := task_manager g;
                  search_entry := search_entry g;
                  status_var := status_var g; task_listbox := task_listbox g;
                  curselection := curselection g;
                  description_text := description t |}
      | None => Some g
      end
  end.

(** [load_tasks]: the list box is emptied, which drops the selection, and
    filled with the lines of the tasks the search gives; the description
    box is cleared. *)
Definition load_tasks (g : gui) : gui :=
  let keyword := search_entry g in
  let status_filter :=
    if bool_decide (status_var g = "All") then None else Some (status_var g) in
  let found := TaskManager.search_tasks keyword status_filter (task_manager g) in
  {| task_manager := task_manager g; search_entry := search_entry g;
     status_var := status_var g; task_listbox := display <$> found;
     curselection := None; description_text := "" |}.

Definition with_manager (m : TaskManager.state) (g : gui) : gui :=
  {| task_manager := m; search_entry := search_entry g;
     status_var := status_var g; task_listbox := task_listbox g;
     curselection := curselection g; description_text := description_text g |}.

(** The user selects line [n] of the list box. *)
Definition select (n : nat) (g : gui) : gui :=
  {| task_manager := task_manager g; search_entry := search_entry g;
     status_var := status_var g; task_listbox := task_listbox g;
     curselection := Some n; description_text := description_text g |}.

(** How a handler ends: it returns, or the exception of [int] or of the
    write leaves it. *)
Inductive handled : Type :=
| Returns
| RaisesValueError
| RaisesOSError (cause : string).

Section Handlers.
Variable w : FileBacked.World.

(** A change of the manager followed by [self.load_tasks()]. *)
Definition then_reload (r : TaskManager.state * TaskManager.completion)
    (g : gui) : gui * handled :=
  match r with
  | (m, TaskManager.Finished) => (load_tasks (with_manager m g), Returns)
  | (m, TaskManager.OSError cause) => (with_manager m g, RaisesOSError cause)
  end.

(** [add_task], with what the user answers to the two dialogs ([None]
    for Cancel). *)
Definition add_task (title desc : option string) (g : gui) : gui * handled :=
  match title with
  | Some title =>
      if Py.falsy title then (g, Returns)
      else
        then_reload
          (TaskManager.add_task w title (default "" desc) (task_manager g)) g
  | None => (g, Returns)
  end.

Definition delete_task (g : gui) : gui * handled :=
  match get_selected_task_id g with
  | ValueError => (g, RaisesValueError)
  | NoSelection => (g, Returns)
  | Id task_id =>
      if bool_decide (task_id = 0) then (g, Returns)
      else then_reload (TaskManager.delete_task w task_id (task_manager g)) g
  end.

Definition mark_complete (g : gui) : gui * handled :=
  match get_selected_task_id g with
  | ValueError => (g, RaisesValueError)
  | NoSelection => (g, Returns)
  | Id task_id =>
      if bool_decide (task_id = 0) then (g, Returns)
      else then_reload (TaskManager.mark_complete w task_id (task_manager g)) g
  end.

(** [edit_task], with what the user answers to the two dialogs. *)
Definition edit_task (new_title new_desc : option string) (g : gui)
    : gui * handled :=
  match get_selected_task_id g with
  | ValueError => (g, RaisesValueError)
  | NoSelection => (g, Returns)
  | Id task_id =>
      if bool_decide (task_id = 0) then (g, Returns)
      else
        match first_with_id task_id (TaskManager.tasks (task_manager g)) with
        | Some _ =>
            match new_title with
            | Some new_title =>
                then_reload
                  (TaskManager.edit_task w task_id new_title
                     (default "" new_desc) (task_manager g)) g
            | None => (g, Returns)
            end
        | None => (g, Returns)
        end
  end.
End Handlers.

End TaskManagerGUI.

(** ** The first version: [1-python-tasks-list/TaskManager.py]

    The same list of dicts behind the same file, but a new id is the
    length of the list plus one, and [delete_task] takes out the first
    task with the id only.  [save_tasks] is that of [TaskManager] but for
    the indentation of the JSON text.  What the methods print is left
    out. *)

Module TasksList.
Import Legacy.

(** The value of [i] at which [for i, task in enumerate(self.tasks)] finds
    the id. *)
Fixpoint index_of (task_id : Z) (l : list task) : option nat :=
  match l with
  | [] => None
  | t :: l' =>
      if bool_decide (id t = task_id) then Some 0%nat
      else S <$> index_of task_id l'
  end.

Section Methods.
Variable w : FileBacked.World.

Definition add_task (title description : string) (s : TaskManager.state)
    : TaskManager.state * TaskManager.completion :=
  let task := {| id := Z.of_nat (length (TaskManager.tasks s)) + 1;
                 title := title; description := description;
                 status := "Pending"; created_date := FileBacked.now w |} in
  TaskManager.save_tasks w
    {| TaskManager.tasks := TaskManager.tasks s ++ [task];
       TaskManager.file := TaskManager.file s |}.

Definition delete_task (task_id : Z) (s : TaskManager.state)
    : TaskManager.state * TaskManager.completion :=
  match index_of task_id (TaskManager.tasks s) with
  | Some i =>
      TaskManager.save_tasks w
        {| TaskManager.tasks := delete i (TaskManager.tasks s);
           TaskManager.file := TaskManager.file s |}
  | None => (s, TaskManager.Finished)
  end.
End Methods.

End TasksList.

(** ** Notions for the further statements *)

Module TaskManagerNotions.
Import Legacy TaskManagerGUI.

(** The tasks [load_tasks] puts in the list box: what the search gives
    for the text of the search box and the choice of the status menu. *)
Definition shown (g : gui) : list task :=
  TaskManager.search_tasks (search_entry g)
    (if bool_decide (status_var g = "All") then None else Some (status_var g))
    (task_manager g).

End TaskManagerNotions.

Module FileBackedMore.
Import FileBacked FileBacked.TaskRepository FileBackedNotions.

(** The file holds the serialized list, record for record. *)
Definition mirrored (s : state) : Prop :=
  file s = Some (to_dict <$> tasks s).

(** A record as the service makes them: title and description trimmed and
    not blank, a title of at most 50 characters, one of the two statuses. *)
Definition tidy (t : TaskModel) : Prop :=
  Py.strip (title t) = title t ∧ ¬ blank (title t) ∧ Py.len (title t) ≤ 50
  ∧ Py.strip (description t) = description t ∧ ¬ blank (description t)
  ∧ (status t = "Pending" ∨ status t = "Completed").

(** [P] holds of every record, in the list and in the file. *)
Definition all_records (P : TaskModel → Prop) (s : state) : Prop :=
  Forall P (tasks s)
  ∧ ∀ ds, file s = Some ds → ∃ l, ds = to_dict <$> l ∧ Forall P l.

(** One call of a method of the service, or a restart of the process. *)
Inductive service_step (s : state) : state → Prop :=
| service_add w title description :
    service_step s (TaskService.add_task w title description s).1
| service_list :
    service_step s (TaskService.list_tasks s).1
| service_mark_complete w x :
    service_step s (TaskService.mark_complete w x s).1
| service_delete w x :
    service_step s (TaskService.delete_task w x s).1
| service_search keyword :
    service_step s (TaskService.search_tasks keyword s).1
| service_restart w :
    service_step s (load_tasks w (file s)).

(** The states of a store that only the service has touched. *)
Inductive service_reachable : state → Prop :=
| service_new w : service_reachable (load_tasks w None)
| service_next s s' :
    service_reachable s → service_step s s' → service_reachable s'.

Definition positive_id (t : TaskModel) : Prop := 1 ≤ task_id t.

(** A record as the dict-based manager holds it: the dict [to_dict]
    gives. *)
Definition as_task (t : TaskModel) : Legacy.task :=
  {| Legacy.id := task_id t; Legacy.title := title t;
     Legacy.description := description t; Legacy.status := status t;
     Legacy.created_date := created_date t |}.

End FileBackedMore.

(** ** More sample data *)

Module SampleMore.
Import Sample.

(** A task file in which the second entry has lost its status. *)
Definition damaged_file : list (gmap string FileBacked.value) :=
  [FileBacked.to_dict milk; delete "status" (FileBacked.to_dict report)].

(** The dict-based manager over the two sample tasks, and its window as
    it opens: an empty search box, every status. *)
Definition manager : TaskManager.state :=
  {| TaskManager.tasks := [legacy_milk; legacy_report];
     TaskManager.file := Some (Some [legacy_milk; legacy_report]) |}.

Definition window : TaskManagerGUI.gui :=
  {| TaskManagerGUI.task_manager := manager;
     TaskManagerGUI.search_entry := "";
     TaskManagerGUI.status_var := "All";
     TaskManagerGUI.task_listbox := [];
     TaskManagerGUI.curselection := None;
     TaskManagerGUI.description_text := "" |}.

(** The same window with the status menu on Pending. *)
Definition pending_window : TaskManagerGUI.gui :=
  {| TaskManagerGUI.task_manager := manager;
     TaskManagerGUI.search_entry := "";
     TaskManagerGUI.status_var := "Pending";
     TaskManagerGUI.task_listbox := [];
     TaskManagerGUI.curselection := None;
     TaskManagerGUI.description_text := "" |}.

(** A row with a creation time that has a fraction of a second. *)
Definition fresh_time : Datetime.datetime :=
  {| Datetime.year := 2025; Datetime.month := 3; Datetime.day := 1;
     Datetime.hour := 9; Datetime.minute := 31; Datetime.second := 0;
     Datetime.microsecond := 482113 |}.

End SampleMore.

(** * Properties *)

(** ** Python text *)

Section PyFacts.
Import Py.

Lemma chars_str (l : list ascii) : chars (str l) = l.
Proof. apply list_ascii_of_string_of_list_ascii. Qed.

Lemma str_chars (s : string) : str (chars s) = s.
Proof. apply string_of_list_ascii_of_string. Qed.

Lemma chars_inj (a b : string) : chars a = chars b → a = b.
Proof. intros H. rewrite <- (str_chars a), <- (str_chars b). by rewrite H. Qed.

Lemma chars_app (a b : string) :
  chars (a +:+ b) = (chars a ++ chars b)%list.
Proof.
  induction a as [|c a IH]; [done|].
  change (String c a +:+ b) with (String c (a +:+ b)).
  unfold chars in *. cbn. by rewrite IH.
Qed.

Lemma falsy_chars (s : string) : falsy s = true ↔ chars s = [].
Proof. by destruct s. Qed.

Lemma falsy_str (l : list ascii) : falsy (str l) = true ↔ l = [].
Proof. by destruct l. Qed.

(** *** Stripping *)

Lemma lstrip_nil_iff (l : list ascii) :
  lstrip_chars l = [] ↔ Forall (λ c, is_space c = true) l.
Proof.
  induction l as [|c l IH]; cbn.
  - split; [constructor | done].
  - destruct (is_space c) eqn:E.
    + rewrite IH. split; [by constructor | by inversion 1].
    + split; [done | inversion 1; congruence].
Qed.

Lemma lstrip_app (m n : list ascii) :
  lstrip_chars (m ++ n) =
    if bool_decide (lstrip_chars m = []) then lstrip_chars n
    else (lstrip_chars m ++ n)%list.
Proof.
  induction m as [|c m IH]; cbn; [done|].
  destruct (is_space c); [done|]. by rewrite bool_decide_false.
Qed.

Lemma lstrip_id (c : ascii) (l : list ascii) :
  is_space c = false → lstrip_chars (c :: l) = c :: l.
Proof. intros E. cbn. by rewrite E. Qed.

(** What [lstrip] leaves is empty or starts with a black character. *)
Lemma lstrip_head (l : list ascii) :
  lstrip_chars l = [] ∨
  ∃ c r, lstrip_chars l = c :: r ∧ is_space c = false.
Proof.
  induction l as [|c l IH]; cbn; [by left|].
  destruct (is_space c) eqn:E; [done|]. right. eauto.
Qed.

Lemma lstrip_idemp (l : list ascii) :
  lstrip_chars (lstrip_chars l) = lstrip_chars l.
Proof.
  destruct (lstrip_head l) as [->|(c & r & -> & E)]; [done|].
  by apply lstrip_id.
Qed.

Lemma rstrip_idemp (l : list ascii) :
  rstrip_chars (rstrip_chars l) = rstrip_chars l.
Proof.
  unfold rstrip_chars. by rewrite reverse_involutive, lstrip_idemp.
Qed.

(** Stripping on the right keeps a black first character. *)
Lemma rstrip_cons_black (c : ascii) (r : list ascii) :
  is_space c = false → ∃ r', rstrip_chars (c :: r) = c :: r'.
Proof.
  intros E. unfold rstrip_chars. rewrite reverse_cons, lstrip_app.
  case_bool_decide.
  - exists []. cbn. by rewrite E.
  - rewrite reverse_app. cbn. eauto.
Qed.

Lemma lstrip_rstrip_lstrip (l : list ascii) :
  lstrip_chars (rstrip_chars (lstrip_chars l)) = rstrip_chars (lstrip_chars l).
Proof.
  destruct (lstrip_head l) as [->|(c & r & -> & E)]; [done|].
  destruct (rstrip_cons_black c r E) as [r' ->]. by apply lstrip_id.
Qed.

Lemma strip_chars_idemp (l : list ascii) :
  strip_chars (strip_chars l) = strip_chars l.
Proof.
  unfold strip_chars. by rewrite lstrip_rstrip_lstrip, rstrip_idemp.
Qed.

Lemma strip_idemp (s : string) : strip (strip s) = strip s.
Proof. unfold strip. by rewrite chars_str, strip_chars_idemp. Qed.

Lemma strip_chars_nil_iff (l : list ascii) :
  strip_chars l = [] ↔ Forall (λ c, is_space c = true) l.
Proof.
  rewrite <- lstrip_nil_iff. unfold strip_chars, rstrip_chars. split.
  - intros H. apply (f_equal reverse) in H.
    rewrite reverse_involutive in H. cbn in H.
    apply lstrip_nil_iff in H. rewrite Forall_reverse in H.
    apply lstrip_nil_iff in H. by rewrite lstrip_idemp in H.
  - by intros ->.
Qed.

(** The test [not s or not s.strip()] holds exactly of the blank strings. *)
Lemma blank_test (s : string) :
  falsy s || falsy (strip s) = true ↔ blank s.
Proof.
  unfold blank, strip. rewrite <- strip_chars_nil_iff, orb_true_iff.
  rewrite falsy_str, falsy_chars. split; [|by right].
  intros [H| H]; [by rewrite H | done].
Qed.

Lemma blank_test_false (s : string) :
  falsy s || falsy (strip s) = false ↔ ¬ blank s.
Proof. rewrite <- blank_test. by destruct (_ || _). Qed.

Lemma blank_strip (s : string) : blank (strip s) ↔ blank s.
Proof.
  unfold blank, strip. rewrite chars_str.
  by rewrite <- !strip_chars_nil_iff, strip_chars_idemp.
Qed.



(** *** Lower case *)

Lemma is_space_lower_char (c : ascii) : is_space (lower_char c) = is_space c.
Proof. by destruct c as [[] [] [] [] [] [] [] []]. Qed.

Lemma lower_char_idemp (c : ascii) : lower_char (lower_char c) = lower_char c.
Proof. by destruct c as [[] [] [] [] [] [] [] []]. Qed.

Lemma lstrip_lower (l : list ascii) :
  lstrip_chars (lower_char <$> l) = lower_char <$> lstrip_chars l.
Proof.
  induction l as [|c l IH]; [done|]. cbn.
  rewrite is_space_lower_char. by destruct (is_space c).
Qed.

Lemma strip_chars_lower (l : list ascii) :
  strip_chars (lower_char <$> l) = lower_char <$> strip_chars l.
Proof.
  unfold strip_chars, rstrip_chars.
  by rewrite lstrip_lower, <- fmap_reverse, lstrip_lower, fmap_reverse.
Qed.

Lemma strip_lower (s : string) : strip (lower s) = lower (strip s).
Proof. unfold strip, lower. by rewrite !chars_str, strip_chars_lower. Qed.

(** *** Occurrence *)

Lemma startswith_spec (p l : list ascii) :
  startswith_chars p l = true ↔ ∃ post, l = (p ++ post)%list.
Proof.
  revert l. induction p as [|a p IH]; intros l; cbn.
  - split; eauto.
  - destruct l as [|b l]; cbn.
    + split; [done | by intros [? ?]].
    + rewrite andb_true_iff, bool_decide_eq_true, IH. split.
      * intros [-> [post ->]]. eauto.
      * intros [post [= -> ->]]. eauto.
Qed.

Lemma contains_spec (p l : list ascii) :
  contains_chars p l = true ↔ ∃ pre post, l = (pre ++ p ++ post)%list.
Proof.
  induction l as [|b l IH]; cbn.
  - rewrite orb_false_r, startswith_spec. split.
    + intros [post ->]. by exists [], post.
    + intros (pre & post & H). symmetry in H.
      apply app_eq_nil in H as [-> H]. eauto.
  - rewrite orb_true_iff, startswith_spec, IH. split.
    + intros [[post ->]|(pre & post & ->)].
      * by exists [], post.
      * by exists (b :: pre), post.
    + intros (pre & post & H). destruct pre as [|c pre].
      * left. eauto.
      * right. injection H as -> ->. eauto.
Qed.

(** [keyword.lower() in text.lower()] is occurrence up to case. *)
Lemma contains_lower (keyword text : string) :
  contains (lower keyword) (lower text) = true
  ↔ occurs_ignoring_case keyword text.
Proof.
  unfold contains, lower, occurs_ignoring_case, same_ignoring_case.
  rewrite !chars_str, contains_spec. split.
  - intros (pre & post & H).
    apply fmap_app_inv in H as (l1 & l23 & -> & H & ->). symmetry in H.
    apply fmap_app_inv in H as (l2 & l3 & H & -> & ->).
    by exists l1, l2, l3.
  - intros (pre & mid & post & -> & H).
    exists (lower_char <$> pre), (lower_char <$> post).
    by rewrite !fmap_app, H.
Qed.

Lemma occurs_same_case (keyword text : string) :
  lower keyword = lower text → occurs_ignoring_case keyword text.
Proof.
  intros H. exists [], (chars text), []. split.
  - by rewrite app_nil_r.
  - unfold same_ignoring_case.
    apply (f_equal chars) in H. unfold lower in H.
    by rewrite !chars_str in H.
Qed.
End PyFacts.

(** ** Dates *)

Section DatetimeFacts.
Import Datetime.

Lemma digit_char_cases (k : Z) :
  0 ≤ k ≤ 9 →
  Py.digit (digit_char k) = Some k
  ∧ digit_char k ≠ " "%char
  ∧ Py.is_space (digit_char k) = false.
Proof.
  intros H.
  assert (Hk : k = 0 ∨ k = 1 ∨ k = 2 ∨ k = 3 ∨ k = 4 ∨ k = 5 ∨ k = 6
               ∨ k = 7 ∨ k = 8 ∨ k = 9) by lia.
  repeat (destruct Hk as [->|Hk]; [by repeat split|]).
  subst k. by repeat split.
Qed.

Lemma digit_digit_char (k : Z) : 0 ≤ k ≤ 9 → Py.digit (digit_char k) = Some k.
Proof. intros H. by apply digit_char_cases. Qed.

Lemma two_digits_pad2 (n : Z) (rest : list ascii) :
  0 ≤ n ≤ 99 → two_digits (pad2 n ++ rest) = Some (n, rest).
Proof.
  intros H. unfold two_digits, pad2. cbn [app].
  rewrite !digit_digit_char by (Z.div_mod_to_equations; lia). cbn.
  do 2 f_equal. Z.div_mod_to_equations. lia.
Qed.

Lemma four_digits_pad4 (n : Z) (rest : list ascii) :
  0 ≤ n ≤ 9999 → four_digits (pad4 n ++ rest) = Some (n, rest).
Proof.
  intros H. unfold four_digits, pad4. cbn [app].
  rewrite !digit_digit_char by (Z.div_mod_to_equations; lia). cbn.
  do 2 f_equal. Z.div_mod_to_equations. lia.
Qed.

Lemma day_field_pad2 (n : Z) (rest : list ascii) :
  0 ≤ n ≤ 99 → day_field (pad2 n ++ rest) = Some (n, rest).
Proof.
  intros H. rewrite <- (two_digits_pad2 n rest H).
  unfold day_field, pad2. cbn [app].
  rewrite bool_decide_false; [done|].
  apply digit_char_cases. Z.div_mod_to_equations. lia.
Qed.

Lemma lstrip_pad2 (n : Z) (rest : list ascii) :
  0 ≤ n ≤ 99 → Py.lstrip_chars (pad2 n ++ rest) = pad2 n ++ rest.
Proof.
  intros H. unfold pad2. cbn [app]. apply lstrip_id.
  apply digit_char_cases. Z.div_mod_to_equations. lia.
Qed.

Lemma valid_bounds (d : datetime) :
  valid d = true →
  1 ≤ year d ≤ 9999 ∧ 1 ≤ month d ≤ 12 ∧ 1 ≤ day d ≤ 31
  ∧ 0 ≤ hour d ≤ 23 ∧ 0 ≤ minute d ≤ 59 ∧ 0 ≤ second d ≤ 59.
Proof.
  unfold valid, between. rewrite !andb_true_iff, !Z.leb_le.
  intros ((((((Hy & Hm) & Hd) & Hh) & Hmi) & Hs) & _).
  assert (days_in_month (year d) (month d) ≤ 31).
  { unfold days_in_month. repeat case_match; lia. }
  lia.
Qed.

Lemma second_resolution_strftime (d : datetime) :
  valid d = true → second_resolution (strftime d) = true.
Proof.
  intros Hv. pose proof (valid_bounds d Hv) as (Hy & Hm & Hd & Hh & Hmi & Hs).
  unfold second_resolution, strftime. rewrite chars_str.
  unfold strftime_chars, pad4, pad2. cbn [app forallb].
  rewrite !andb_true_iff, !bool_decide_eq_true.
  repeat split; try done; unfold is_digit; apply bool_decide_eq_true;
    rewrite digit_digit_char by (Z.div_mod_to_equations; lia); eauto.
Qed.

(** A date at second resolution comes back from its text. *)
Lemma strptime_strftime (d : datetime) :
  valid d = true → microsecond d = 0 → strptime (strftime d) = Some d.
Proof.
  intros Hv Hus. pose proof (valid_bounds d Hv) as (Hy & Hm & Hd & Hh & Hmi & Hs).
  unfold strptime, strftime. rewrite chars_str.
  unfold strptime_chars, strftime_chars.
  rewrite four_digits_pad4 by lia. cbn [mbind option_bind expect].
  rewrite bool_decide_true by done. cbn [mbind option_bind].
  rewrite two_digits_pad2 by lia. cbn [mbind option_bind expect].
  rewrite bool_decide_true by done. cbn [mbind option_bind].
  rewrite day_field_pad2 by lia. cbn [mbind option_bind spaces].
  replace (Py.is_space " ") with true by done.
  rewrite lstrip_pad2 by lia. cbn [mbind option_bind].
  rewrite two_digits_pad2 by lia. cbn [mbind option_bind expect].
  rewrite bool_decide_true by done. cbn [mbind option_bind].
  rewrite two_digits_pad2 by lia. cbn [mbind option_bind expect].
  rewrite bool_decide_true by done. cbn [mbind option_bind].
  rewrite <- (app_nil_r (pad2 (second d))).
  rewrite two_digits_pad2 by lia. cbn [mbind option_bind].
  rewrite bool_decide_true by done. cbn [andb].
  destruct d as [y m dd h mi s us]. cbn in *. subst us. by rewrite Hv.
Qed.
End DatetimeFacts.

(** ** The file-backed repository *)

Section FileBackedFacts.
Import FileBacked FileBacked.TaskRepository FileBackedNotions.

(** Unfolds one method call down to the state it leaves and its outcome. *)
Ltac run :=
  unfold TaskService.add_task, TaskService.mark_complete,
    TaskService.delete_task, TaskService.search_tasks, TaskService.list_tasks,
    add_task, update_task, delete_task, find_task_by_id, get_all_tasks,
    assign_status, get_next_id, save_tasks, read_tasks, write_tasks,
    with_tasks, raise, mbind, mret, M_bind, M_ret; cbn.

(** *** The record and its serialized form *)

Lemma second_resolution_not_empty (d : string) :
  second_resolution d = true → Py.falsy d = false.
Proof. by destruct d. Qed.

(** What [from_dict] makes of a serialized record: the record itself, but
    for an empty creation time, which the clock replaces. *)
Lemma from_dict_to_dict_gen (w : World) (r : TaskModel) :
  from_dict w (to_dict r) =
    Some (init w (task_id r) (title r) (description r)
            (Some (status r)) (Some (created_date r))).
Proof. done. Qed.

Lemma task_id_init w i t d st cd : task_id (init w i t d st cd) = i.
Proof. done. Qed.

(** *** Ids *)

Lemma py_max_le (x : Z) (xs : list Z) :
  x ≤ py_max x xs ∧ ∀ i, i ∈ xs → i ≤ py_max x xs.
Proof.
  unfold py_max. revert x. induction xs as [|y xs IH]; intros x; cbn.
  - split; [lia | by intros i ?%elem_of_nil].
  - destruct (IH (Z.max x y)) as [H1 H2]. split; [lia|].
    intros i [->|Hi]%elem_of_cons; [lia | auto].
Qed.

Lemma py_max_elem (x : Z) (xs : list Z) : py_max x xs ∈ x :: xs.
Proof.
  unfold py_max. revert x. induction xs as [|y xs IH]; intros x; cbn.
  - apply elem_of_cons. by left.
  - specialize (IH (Z.max x y)). rewrite !elem_of_cons in *.
    destruct IH as [H|H]; [|by right; right].
    destruct (Z.max_spec x y) as [[_ E]|[_ E]];
      [right; left | left]; congruence.
Qed.

Lemma index_of_None (i : Z) (l : list TaskModel) :
  index_of i l = None ↔ i ∉ ids l.
Proof.
  unfold ids. induction l as [|t l IH]; cbn.
  - split; [intros _; apply not_elem_of_nil | done].
  - rewrite not_elem_of_cons. case_bool_decide as E.
    + split; [done | intros [? _]; congruence].
    + rewrite fmap_None, IH. split; [by split | by intros [_ ?]].
Qed.

Lemma index_of_Some (i : Z) (l : list TaskModel) (n : nat) :
  index_of i l = Some n →
  ∃ t, l !! n = Some t ∧ task_id t = i
       ∧ ∀ m u, (m < n)%nat → l !! m = Some u → task_id u ≠ i.
Proof.
  revert n. induction l as [|t l IH]; intros n; cbn; [done|].
  case_bool_decide as E.
  - intros [= <-]. exists t. repeat split; [done|]. intros; lia.
  - intros (n' & H & ->)%fmap_Some.
    destruct (IH _ H) as (t' & Ht' & Hid & Hfirst).
    exists t'. repeat split; [done..|].
    intros [|m] u Hm; cbn; [by intros [= <-] | apply Hfirst; lia].
Qed.

Lemma index_of_is_Some (i : Z) (l : list TaskModel) :
  i ∈ ids l → is_Some (index_of i l).
Proof.
  intros H. destruct (index_of i l) eqn:E; [done|].
  by apply index_of_None in E.
Qed.

Lemma index_of_app_new (i : Z) (l : list TaskModel) (t : TaskModel) :
  i ∉ ids l → task_id t = i → index_of i (l ++ [t]) = Some (length l).
Proof.
  unfold ids. intros Hl Ht. induction l as [|u l IH]; cbn.
  - by rewrite bool_decide_true.
  - apply not_elem_of_cons in Hl as [Hu Hl].
    rewrite bool_decide_false by congruence. by rewrite IH.
Qed.

Lemma ids_insert (l : list TaskModel) (n : nat) (t u : TaskModel) :
  l !! n = Some u → task_id t = task_id u → ids (<[n := t]> l) = ids l.
Proof.
  intros Hn Hid. unfold ids. rewrite list_fmap_insert, Hid.
  apply list_insert_id. by rewrite list_lookup_fmap, Hn.
Qed.

Lemma ids_alter (f : TaskModel → TaskModel) (l : list TaskModel) (n : nat) :
  (∀ t, task_id (f t) = task_id t) → ids (alter f n l) = ids l.
Proof.
  intros Hf. unfold ids. revert n.
  induction l as [|u l IH]; intros [|n]; cbn; f_equal; auto.
Qed.


Lemma insert_alter_same (f : TaskModel → TaskModel) (l : list TaskModel)
    (n : nat) (t : TaskModel) :
  <[n := t]> (alter f n l) = <[n := t]> l.
Proof. revert n. induction l as [|u l IH]; intros [|n]; cbn; f_equal; auto. Qed.

Lemma index_of_ids (i : Z) (l l' : list TaskModel) :
  ids l = ids l' → index_of i l = index_of i l'.
Proof.
  unfold ids. revert l'.
  induction l as [|t l IH]; intros [|t' l']; cbn; try done.
  intros [= -> H]. by rewrite (IH _ H).
Qed.

(** The id [get_next_id] gives is one above the greatest, and new. *)
Lemma get_next_id_spec (s : state) :
  ∃ m, get_next_id s = (s, Returned (m + 1))
       ∧ max_existing_id (tasks s) m
       ∧ ∀ i, i ∈ ids (tasks s) → i < m + 1.
Proof.
  run. destruct (tasks s) as [|t l] eqn:E; cbn.
  - exists 0. repeat split. by intros i ?%elem_of_nil.
  - destruct (py_max_le (task_id t) (task_id <$> l)) as [H1 H2].
    exists (py_max (task_id t) (task_id <$> l)). repeat split.
    + apply py_max_elem.
    + intros i [->|Hi]%elem_of_cons; auto.
    + intros i [->|Hi]%elem_of_cons; [lia|]. specialize (H2 _ Hi). lia.
Qed.

(** *** Adding *)

(** What the repository's [add_task] does, in one equation. *)
Lemma repo_add_task_eq (w : World) (s : state) (title description : string) :
  ∃ m, max_existing_id (tasks s) m
    ∧ (∀ i, i ∈ ids (tasks s) → i < m + 1)
    ∧ add_task w title description s =
        let t := init w (m + 1) title description None None in
        match write_error w with
        | None =>
            ({| tasks := tasks s ++ [t];
                file := Some (to_dict <$> (tasks s ++ [t])%list) |},
             Returned t)
        | Some cause =>
            ({| tasks := tasks s ++ [t]; file := file s |},
             Raised (Failed "save tasks" cause))
        end.
Proof.
  destruct (get_next_id_spec s) as (m & E & Hmax & Hnew).
  exists m. split; [done|]. split; [done|].
  unfold add_task. cbv beta delta [mbind M_bind]. rewrite E.
  run. by destruct (write_error w).
Qed.

Lemma service_add_task_accepts (w : World) (s : state)
    (title description : string) :
  acceptable title description →
  TaskService.add_task w title description s =
    add_task w (Py.strip title) (Py.strip description) s.
Proof.
  intros (Ht%blank_test_false & Hl & Hd%blank_test_false).
  unfold TaskService.add_task. rewrite Ht, Hd.
  by rewrite (proj2 (Z.ltb_ge _ _) Hl).
Qed.

(** C1. Whatever the store holds, [add] of an acceptable title and
    description gives the new record the id (greatest existing id, or 0 in
    an empty store) + 1.  That id is above every id the store held, and
    [find] with it then returns the record [add] returned.  (When the file
    cannot be written [add] raises instead of returning; the record is in
    the list all the same.) *)
Theorem add_task_next_id (w : World) (s : state) (title description : string) :
  acceptable title description →
  ∃ (t : TaskModel) (s' : state) (m : Z),
    TaskService.add_task w title description s =
      (s', match write_error w with
           | None => Returned t
           | Some cause => Raised (Failed "save tasks" cause)
           end)
    ∧ tasks s' = tasks s ++ [t]
    ∧ t = init w (m + 1) (Py.strip title) (Py.strip description) None None
    ∧ max_existing_id (tasks s) m
    ∧ (∀ i, i ∈ ids (tasks s) → i < task_id t)
    ∧ find_task_by_id (task_id t) s' = (s', Returned (Some t)).
Proof.
  intros Hok. rewrite (service_add_task_accepts w s _ _ Hok).
  destruct (repo_add_task_eq w s (Py.strip title) (Py.strip description))
    as (m & Hmax & Hnew & ->).
  set (t := init w (m + 1) (Py.strip title) (Py.strip description) None None).
  assert (Hfresh : task_id t ∉ ids (tasks s)).
  { intros H%Hnew. cbn in H. lia. }
  assert (Hfind : ∀ f, find_task_by_id (task_id t)
                    {| tasks := tasks s ++ [t]; file := f |}
                  = ({| tasks := tasks s ++ [t]; file := f |}, Returned (Some t))).
  { intros f. run.
    rewrite (index_of_app_new (m + 1) (tasks s) t Hfresh eq_refl). cbn.
    by rewrite list_lookup_middle. }
  cbn zeta. fold t.
  destruct (write_error w) as [cause|];
    eexists t, _, m; (split; [reflexivity|]); cbn; auto 10.
Qed.

(** *** Validation *)

Lemma repo_add_task_outcome (w : World) (s : state) (title description : string) :
  ∀ e, (add_task w title description s).2 = Raised e → kind e = PersistenceError.
Proof.
  destruct (repo_add_task_eq w s title description) as (m & _ & _ & ->).
  cbn zeta. destruct (write_error w); cbn; by intros e [= <-].
Qed.

(** What the service's [add_task] does, test by test. *)
Lemma service_add_task_cases (w : World) (s : state) (title description : string) :
  (blank title ∧
     TaskService.add_task w title description s = (s, Raised TitleEmpty))
  ∨ (¬ blank title ∧ 50 < Py.len title ∧
     TaskService.add_task w title description s = (s, Raised TitleTooLong))
  ∨ (¬ blank title ∧ Py.len title ≤ 50 ∧ blank description ∧
     TaskService.add_task w title description s = (s, Raised DescriptionEmpty))
  ∨ (acceptable title description ∧
     TaskService.add_task w title description s =
       add_task w (Py.strip title) (Py.strip description) s).
Proof.
  unfold TaskService.add_task, acceptable.
  destruct (Py.falsy title || Py.falsy (Py.strip title)) eqn:Et.
  { apply blank_test in Et. by left. }
  apply blank_test_false in Et. right.
  destruct (Z.ltb_spec 50 (Py.len title)) as [Hl|Hl]; [by left|]. right.
  destruct (Py.falsy description || Py.falsy (Py.strip description)) eqn:Ed.
  { apply blank_test in Ed. by left. }
  apply blank_test_false in Ed. by right.
Qed.

(** The limit on the title comes before the trimming. *)
Lemma file_add_task_limit_before_trim (w : World) (s : state)
    (title description : string) :
  50 < Py.len title →
  ∃ e, TaskService.add_task w title description s = (s, Raised e)
       ∧ kind e = ValidationError
       ∧ (e = TitleTooLong ∨ (blank title ∧ e = TitleEmpty)).
Proof.
  intros Hl.
  destruct (service_add_task_cases w s title description)
    as [[H1 ->]|[(H1 & H2 & ->)|[(H1 & H2 & H3 & ->)|[(H1 & H2 & H3) ->]]]];
    try lia; eauto 10.
Qed.

(** *** Identifiers *)

(** What [mark_complete] does on the id of a live record. *)
Lemma mark_complete_live (w : World) (s : state) (x : Py.ident) (i : Z) :
  Py.int x = Some i → live i s →
  ∃ n t, index_of i (tasks s) = Some n ∧ tasks s !! n = Some t
    ∧ task_id t = i
    ∧ TaskService.mark_complete w x s =
        let t' := set_status "Completed" t in
        let l' := <[n := t']> (tasks s) in
        match write_error w with
        | None => ({| tasks := l'; file := Some (to_dict <$> l') |}, Returned t')
        | Some cause =>
            ({| tasks := l'; file := file s |},
             Raised (Failed "save tasks" cause))
        end.
Proof.
  intros Hx Hi. destruct (index_of_is_Some _ _ Hi) as [n Hn].
  destruct (index_of_Some _ _ _ Hn) as (t & Ht & Hid & _).
  exists n, t. repeat split; [done..|].
  unfold TaskService.mark_complete. rewrite Hx.
  unfold find_task_by_id, assign_status, update_task.
  cbv beta delta [mbind M_bind read_tasks write_tasks mret M_ret]. cbn.
  rewrite Hn. cbn. rewrite Ht, Hid, Hn. unfold with_tasks. cbn.
  rewrite (index_of_ids i (alter _ n (tasks s)) (tasks s))
    by (by apply ids_alter).
  rewrite Hn. cbn. rewrite insert_alter_same.
  unfold save_tasks. by destruct (write_error w).
Qed.

Lemma mark_complete_absent (w : World) (s : state) (x : Py.ident) (i : Z) :
  Py.int x = Some i → ¬ live i s →
  TaskService.mark_complete w x s = (s, Raised (TaskNotFound i)).
Proof.
  intros Hx Hi%index_of_None. unfold TaskService.mark_complete.
  rewrite Hx. run. by rewrite Hi.
Qed.


(** Two calls of [mark_complete] on the id of a live record. *)
Lemma file_mark_complete_twice (w1 w2 : World) (s : state)
    (x : Py.ident) (i : Z) :
  Py.int x = Some i → live i s →
  let r1 := TaskService.mark_complete w1 x s in
  let r2 := TaskService.mark_complete w2 x r1.1 in
  status_of i r1.1 = Some "Completed"
  ∧ status_of i r2.1 = Some "Completed"
  ∧ tasks r2.1 = tasks r1.1
  ∧ (∀ e, r2.2 = Raised e →
       kind e = PersistenceError ∧ is_Some (write_error w2))
  ∧ (write_error w1 = None →
       ∃ t, r1.2 = Returned t ∧ task_id t = i ∧ status t = "Completed")
  ∧ (write_error w2 = None →
       ∃ t, r2.2 = Returned t ∧ task_id t = i ∧ status t = "Completed").
Proof.
  intros Hx Hi r1 r2.
  destruct (mark_complete_live w1 s x i Hx Hi) as (n & t & Hn & Ht & Hid & E1).
  set (t' := set_status "Completed" t) in *.
  set (l' := <[n := t']> (tasks s)) in *.
  assert (Hl' : tasks r1.1 = l').
  { subst r1. rewrite E1. cbn zeta. by destruct (write_error w1). }
  assert (Hids : ids l' = ids (tasks s)) by by apply (ids_insert _ _ _ t).
  assert (Hn' : index_of i l' = Some n) by by rewrite (index_of_ids i l' (tasks s)).
  assert (Ht' : l' !! n = Some t').
  { apply list_lookup_insert_eq. by eapply lookup_lt_Some. }
  assert (Hi' : live i r1.1).
  { unfold live. rewrite Hl', Hids. exact Hi. }
  destruct (mark_complete_live w2 r1.1 x i Hx Hi')
    as (n2 & t2 & Hn2 & Ht2 & Hid2 & E2).
  rewrite Hl' in Hn2, Ht2, E2. rewrite Hn' in Hn2. injection Hn2 as <-.
  rewrite Ht' in Ht2. injection Ht2 as <-.
  change (set_status "Completed" t') with t' in E2.
  cbn zeta in E2. rewrite (list_insert_id l' n t' Ht') in E2.
  assert (Hl2 : tasks r2.1 = l').
  { subst r2. rewrite E2. by destruct (write_error w2). }
  assert (Hst : ∀ s0, tasks s0 = l' → status_of i s0 = Some "Completed").
  { intros s0 H0. unfold status_of. rewrite H0, Hn'. cbn. by rewrite Ht'. }
  split; [by apply Hst|]. split; [by apply Hst|]. split; [congruence|].
  split; [|split].
  - subst r2. rewrite E2. intros e.
    destruct (write_error w2); cbn; [|done]. by intros [= <-].
  - intros Hw. exists t'. subst r1. rewrite E1. cbn zeta. by rewrite Hw.
  - intros Hw. exists t'. subst r2. rewrite E2. by rewrite Hw.
Qed.

(** *** No two records share an id *)











(** *** The record and its serialized form *)

(** A valid record comes back from [from_dict (to_dict r)] field for field. *)
Lemma file_from_dict_to_dict (w : World) (r : TaskModel) :
  valid_record r →
  from_dict w (to_dict r) = Some r
  ∧ created_date <$> from_dict w (to_dict r) = Some (created_date r)
  ∧ to_dict r !! "created_date" = Some (VStr (created_date r)).
Proof.
  intros (_ & _ & _ & Hd%second_resolution_not_empty).
  rewrite from_dict_to_dict_gen. unfold init. rewrite Hd.
  by destruct r.
Qed.

(** *** Searching *)

Lemma search_tasks_blank (keyword : string) (s : state) :
  blank keyword → TaskService.search_tasks keyword s = (s, Returned []).
Proof.
  intros H%blank_test. unfold TaskService.search_tasks. by rewrite H.
Qed.


(** The service's search keeps, in the order of the list, the records in
    which the trimmed keyword occurs up to case. *)
Lemma search_tasks_selects (keyword : string) (s : state) :
  ¬ blank keyword →
  ∃ l, TaskService.search_tasks keyword s = (s, Returned l)
    ∧ l `sublist_of` tasks s
    ∧ ∀ t, t ∈ l ↔
        t ∈ tasks s
        ∧ (occurs_ignoring_case (Py.strip keyword) (title t)
           ∨ occurs_ignoring_case (Py.strip keyword) (description t)).
Proof.
  intros E%blank_test_false. unfold TaskService.search_tasks. rewrite E.
  run. eexists. split; [reflexivity|]. split; [apply sublist_filter|].
  intros t. rewrite list_elem_of_filter, strip_lower.
  rewrite orb_True, !Is_true_true, !contains_lower. tauto.
Qed.
End FileBackedFacts.

(** ** The relational service, whatever its repository *)

Section RelationalFacts.
Import Relational.
Context {DB : Type} {repository : TaskRepository DB}.

Lemma rel_add_task_cases (db : DB) (title description : string) :
  (blank title ∧
     TaskService.add_task title description db = (db, Raised TitleEmpty))
  ∨ (¬ blank title ∧ 50 < Py.len title ∧
     TaskService.add_task title description db = (db, Raised TitleTooLong))
  ∨ (¬ blank title ∧ Py.len title ≤ 50 ∧ blank description ∧
     TaskService.add_task title description db = (db, Raised DescriptionEmpty))
  ∨ (acceptable title description ∧
     TaskService.add_task title description db =
       add_task (Py.strip title) (Py.strip description) db).
Proof.
  unfold TaskService.add_task, acceptable.
  destruct (Py.falsy title || Py.falsy (Py.strip title)) eqn:Et.
  { apply blank_test in Et. by left. }
  apply blank_test_false in Et. right.
  destruct (Z.ltb_spec 50 (Py.len title)) as [Hl|Hl]; [by left|]. right.
  destruct (Py.falsy description || Py.falsy (Py.strip description)) eqn:Ed.
  { apply blank_test in Ed. by left. }
  apply blank_test_false in Ed. by right.
Qed.

(** The limit on the title comes before the trimming here too. *)
Lemma rel_add_task_limit_before_trim (db : DB) (title description : string) :
  50 < Py.len title →
  ∃ e, TaskService.add_task title description db = (db, Raised e)
       ∧ kind e = ValidationError.
Proof.
  intros Hl.
  destruct (rel_add_task_cases db title description)
    as [[H1 ->]|[(H1 & H2 & ->)|[(H1 & H2 & H3 & ->)|[(H1 & H2 & H3) ->]]]];
    try lia; eauto.
Qed.




(** What [mark_complete] does when the repository finds the record: the
    status the record has plays no part. *)
Lemma rel_mark_complete_found (db db1 db2 : DB) (x : Py.ident) (i : Z)
    (t : TaskModel) (b : bool) :
  Py.int x = Some i →
  find_task_by_id i db = (db1, Returned (Some t)) →
  update_task (set_status "Completed" t) db1 = (db2, Returned b) →
  TaskService.mark_complete x db = (db2, Returned (set_status "Completed" t)).
Proof.
  intros Hx Hf Hu. unfold TaskService.mark_complete. rewrite Hx.
  cbv beta delta [mbind M_bind]. rewrite Hf.
  cbv beta iota zeta delta [mbind M_bind]. by rewrite Hu.
Qed.

Lemma rel_search_tasks_blank (db : DB) (keyword : string) :
  blank keyword → TaskService.search_tasks keyword db = (db, Returned []).
Proof.
  intros H%blank_test. unfold TaskService.search_tasks. by rewrite H.
Qed.


(** A valid record comes back from [from_dict (to_dict r)] field for field;
    the text of its creation time is of the form [YYYY-MM-DD HH:MM:SS]. *)
Lemma rel_from_dict_to_dict (now : Datetime.datetime) (r : TaskModel) :
  RelationalNotions.valid_record r →
  from_dict now (to_dict r) = Some r
  ∧ ∃ text, to_dict r !! "created_date" = Some (VStr text)
            ∧ second_resolution text = true.
Proof.
  intros (_ & _ & _ & d & Hcd & Hv & _ & Hus).
  assert (Hl : to_dict r !! "created_date" = Some (VStr (Datetime.strftime d))).
  { unfold to_dict. rewrite Hcd. reflexivity. }
  split.
  - unfold from_dict. rewrite Hl. cbn [mbind option_bind].
    rewrite (strptime_strftime d Hv Hus). cbn [fmap option_fmap option_map].
    cbn [mbind option_bind]. destruct r as [i t ds st cd]. cbn in Hcd. subst cd.
    reflexivity.
  - eexists. split; [exact Hl|]. by apply second_resolution_strftime.
Qed.
End RelationalFacts.

(** ** The dict-based manager *)

Section LegacyFacts.
Import Legacy.

(** The test the loop of [search_tasks] applies to one task. *)
Lemma search_loop_filter (keyword : string) (status_filter : option string)
    (tasks : list task) :
  search_loop keyword status_filter tasks =
    filter (λ t,
        (Py.contains keyword (Py.lower (title t))
         || Py.contains keyword (Py.lower (description t)))
        && match status_filter with
           | None => true
           | Some st => bool_decide (status t = st)
           end = true)
      tasks.
Proof.
  induction tasks as [|t l IH]; [done|]. cbn [search_loop].
  rewrite filter_cons, IH.
  destruct (Py.contains _ _ || Py.contains _ _); cbn; [|done].
  by destruct (match status_filter with None => _ | Some _ => _ end).
Qed.

(** C8. The file-backed search returns, in the order of the store, exactly
    the records in which the keyword occurs in the title or the
    description up to the case of letters, among those of the status asked
    for when one is asked for.  A keyword that is the stored title or
    description in another case finds the record. *)
Theorem search_tasks_selected (keyword : string)
    (status_filter : option string) (tasks : list task) :
  (∃ keep : task → bool,
     (∀ t, keep t = true ↔ selected keyword status_filter t)
     ∧ search_tasks keyword status_filter tasks
       = filter (λ t, keep t = true) tasks)
  ∧ search_tasks keyword status_filter tasks `sublist_of` tasks
  ∧ (∀ t, t ∈ search_tasks keyword status_filter tasks
          ↔ t ∈ tasks ∧ selected keyword status_filter t)
  ∧ (∀ t, t ∈ tasks →
          Py.lower keyword = Py.lower (title t)
          ∨ Py.lower keyword = Py.lower (description t) →
          (∀ st, status_filter = Some st → status t = st) →
          t ∈ search_tasks keyword status_filter tasks).
Proof.
  set (keep := λ t,
        (Py.contains (Py.lower keyword) (Py.lower (title t))
         || Py.contains (Py.lower keyword) (Py.lower (description t)))
        && match status_filter with
           | None => true
           | Some st => bool_decide (status t = st)
           end).
  assert (Hkeep : ∀ t, keep t = true ↔ selected keyword status_filter t).
  { intros t. unfold keep, selected.
    rewrite andb_true_iff, orb_true_iff, !contains_lower.
    apply and_iff_compat_l. destruct status_filter as [st|].
    - rewrite bool_decide_eq_true. split; [by intros -> ? [= <-] | auto].
    - split; [by intros _ ? [=] | done]. }
  assert (Heq : search_tasks keyword status_filter tasks
                = filter (λ t, keep t = true) tasks).
  { unfold search_tasks. by rewrite search_loop_filter. }
  assert (Hin : ∀ t, t ∈ search_tasks keyword status_filter tasks
                     ↔ t ∈ tasks ∧ selected keyword status_filter t).
  { intros t. rewrite Heq, list_elem_of_filter, Hkeep. tauto. }
  split; [by exists keep|]. split; [rewrite Heq; apply sublist_filter|].
  split; [done|].
  intros t Ht Hcase Hst. apply Hin. split; [done|]. split; [|done].
  destruct Hcase as [H|H]; [left|right]; by apply occurs_same_case.
Qed.
End LegacyFacts.

(** ** The service, in both variants *)

Section ServiceFacts.
Import FileBacked.TaskRepository FileBackedNotions.


(** C3. The service's [add] fails with a validation error exactly when
    the title is blank, the title is longer than 50 characters, or the
    description is blank.  Such a failure leaves the store as it was:
    nothing is added to the list or written to the file.  Otherwise the
    call is the repository's [add] on the trimmed title and description,
    which raises no validation error. *)
Theorem add_task_validation (title description : string) :
  (∀ w s,
     (blank title ∨ 50 < Py.len title ∨ blank description →
        ∃ e, FileBacked.TaskService.add_task w title description s
               = (s, Raised e)
             ∧ kind e = ValidationError)
     ∧ (¬ (blank title ∨ 50 < Py.len title ∨ blank description) →
        FileBacked.TaskService.add_task w title description s
          = add_task w (Py.strip title) (Py.strip description) s
        ∧ ∀ e, (FileBacked.TaskService.add_task w title description s).2
                 = Raised e → kind e ≠ ValidationError))
  ∧ (∀ DB (repository : Relational.TaskRepository DB) (db : DB),
       (blank title ∨ 50 < Py.len title ∨ blank description →
          ∃ e, Relational.TaskService.add_task title description db
                 = (db, Raised e)
               ∧ kind e = ValidationError)
       ∧ (¬ (blank title ∨ 50 < Py.len title ∨ blank description) →
          Relational.TaskService.add_task title description db
            = Relational.add_task (Py.strip title) (Py.strip description) db)).
Proof.
  split.
  - intros w s.
    destruct (service_add_task_cases w s title description)
      as [[H1 ->]|[(H1 & H2 & ->)|[(H1 & H2 & H3 & ->)|[(H1 & H2 & H3) ->]]]].
    + split; [eauto | tauto].
    + split; [eauto | tauto].
    + split; [eauto | tauto].
    + split; [intros [?|[?|?]]; [done | lia | done]|].
      intros _. split; [done|]. intros e He Hk.
      apply repo_add_task_outcome in He. congruence.
  - intros DB repository db.
    destruct (rel_add_task_cases db title description)
      as [[H1 ->]|[(H1 & H2 & ->)|[(H1 & H2 & H3 & ->)|[(H1 & H2 & H3) ->]]]].
    + split; [eauto | tauto].
    + split; [eauto | tauto].
    + split; [eauto | tauto].
    + split; [intros [?|[?|?]]; [done | lia | done] | done].
Qed.

(** C9. The 50-character limit bears on the title as received: a title
    longer than 50 characters is refused with a validation error, however
    short it is once trimmed, and the store stays as it was. *)
Theorem add_task_limit_before_trim (title description : string) :
  50 < Py.len title →
  (∀ w s, ∃ e, FileBacked.TaskService.add_task w title description s
                 = (s, Raised e)
               ∧ kind e = ValidationError
               ∧ (e = TitleTooLong ∨ (blank title ∧ e = TitleEmpty)))
  ∧ (∀ DB (repository : Relational.TaskRepository DB) (db : DB),
       ∃ e, Relational.TaskService.add_task title description db
              = (db, Raised e)
            ∧ kind e = ValidationError).
Proof.
  intros Hl. split.
  - intros w s. by apply file_add_task_limit_before_trim.
  - intros DB repository db. by apply rel_add_task_limit_before_trim.
Qed.

(** C5. A valid record (title and description not empty, status Pending
    or Completed, creation time at second resolution) comes back from
    [from_dict (to_dict r)] field for field.  Its creation time is
    serialized as a text [YYYY-MM-DD HH:MM:SS] and read back from it: the
    text itself in the file-backed variant, the [datetime] it renders in the
    relational one. *)
Theorem from_dict_to_dict :
  (∀ w r, valid_record r →
     FileBacked.from_dict w (FileBacked.to_dict r) = Some r
     ∧ FileBacked.to_dict r !! "created_date"
       = Some (FileBacked.VStr (FileBacked.created_date r))
     ∧ second_resolution (FileBacked.created_date r) = true)
  ∧ (∀ now r, RelationalNotions.valid_record r →
       Relational.from_dict now (Relational.to_dict r) = Some r
       ∧ ∃ text, Relational.to_dict r !! "created_date"
                   = Some (Relational.VStr text)
                 ∧ second_resolution text = true).
Proof.
  split.
  - intros w r Hr. destruct (file_from_dict_to_dict w r Hr) as (H1 & _ & H3).
    split; [done|]. split; [done|]. apply Hr.
  - intros now r. apply rel_from_dict_to_dict.
Qed.

(** C6. [mark_complete] may be called twice on the id of a live record.  In
    the file-backed service the record's status is Completed after each
    call, the second call changes nothing in the list and raises no
    validation or not-found error, and it returns the completed record
    whenever the file can be written.  In the relational service the call
    does not look at the status the record has: whenever the repository
    finds the record and takes the update, the call returns the record with
    status Completed. *)
Theorem mark_complete_idempotent :
  (∀ w1 w2 s x i,
     Py.int x = Some i → live i s →
     let r1 := FileBacked.TaskService.mark_complete w1 x s in
     let r2 := FileBacked.TaskService.mark_complete w2 x r1.1 in
     status_of i r1.1 = Some "Completed"
     ∧ status_of i r2.1 = Some "Completed"
     ∧ tasks r2.1 = tasks r1.1
     ∧ (∀ e, r2.2 = Raised e →
          kind e = PersistenceError ∧ is_Some (FileBacked.write_error w2))
     ∧ (FileBacked.write_error w1 = None →
          ∃ t, r1.2 = Returned t ∧ FileBacked.task_id t = i
               ∧ FileBacked.status t = "Completed")
     ∧ (FileBacked.write_error w2 = None →
          ∃ t, r2.2 = Returned t ∧ FileBacked.task_id t = i
               ∧ FileBacked.status t = "Completed"))
  ∧ (∀ DB (repository : Relational.TaskRepository DB) (db db1 db2 : DB)
       x i t b,
       Py.int x = Some i →
       Relational.find_task_by_id i db = (db1, Returned (Some t)) →
       Relational.update_task (Relational.set_status "Completed" t) db1
         = (db2, Returned b) →
       Relational.TaskService.mark_complete x db
         = (db2, Returned (Relational.set_status "Completed" t))
       ∧ Relational.status (Relational.set_status "Completed" t) = "Completed").
Proof.
  split.
  - intros w1 w2 s x i. apply file_mark_complete_twice.
  - intros DB repository db db1 db2 x i t b Hx Hf Hu. split; [|done].
    by apply (rel_mark_complete_found db db1 db2 x i t b).
Qed.

(** C7. A blank keyword makes the service's search return the empty list
    at once: behind the relational service no method of the repository
    runs, whatever the repository is, and the file-backed service leaves
    its store alone. *)
Theorem search_tasks_blank_no_query :
  (∀ DB (repository : Relational.TaskRepository DB) (db : DB) keyword,
     blank keyword →
     Relational.TaskService.search_tasks keyword db = (db, Returned []))
  ∧ (∀ (s : state) keyword,
       blank keyword →
       FileBacked.TaskService.search_tasks keyword s = (s, Returned [])).
Proof.
  split.
  - intros DB repository db keyword. apply rel_search_tasks_blank.
  - intros s keyword. apply search_tasks_blank.
Qed.

End ServiceFacts.

(** ** The statements at work *)

Section Examples.
Import FileBacked FileBacked.TaskRepository FileBackedNotions Sample.

Ltac not_blank := apply blank_test_false; reflexivity.
Ltac is_blank := apply blank_test; reflexivity.

Lemma add_task_next_id_witness :
  acceptable " Call Ana " "About the report"
  ∧ ∃ (t : TaskModel) (s' : state) (m : Z),
      TaskService.add_task noon " Call Ana " "About the report" two_tasks =
        (s', match write_error noon with
             | None => Returned t
             | Some cause => Raised (Failed "save tasks" cause)
             end)
      ∧ tasks s' = tasks two_tasks ++ [t]
      ∧ t = init noon (m + 1) (Py.strip " Call Ana ")
              (Py.strip "About the report") None None
      ∧ max_existing_id (tasks two_tasks) m
      ∧ (∀ i, i ∈ ids (tasks two_tasks) → i < task_id t)
      ∧ find_task_by_id (task_id t) s' = (s', Returned (Some t)).
Proof.
  assert (H : acceptable " Call Ana " "About the report").
  { split; [not_blank|]. split; [vm_compute; discriminate | not_blank]. }
  split; [exact H|].
  exact (add_task_next_id noon two_tasks " Call Ana " "About the report" H).
Defined.


Lemma add_task_validation_witness :
  (blank "" ∨ 50 < Py.len "" ∨ blank "x")
  ∧ ∃ e, TaskService.add_task noon "" "x" two_tasks = (two_tasks, Raised e)
         ∧ kind e = ValidationError.
Proof.
  assert (H : blank "" ∨ 50 < Py.len "" ∨ blank "x") by (left; constructor).
  split; [exact H|].
  exact (proj1 (proj1 (add_task_validation "" "x") noon two_tasks) H).
Defined.

Lemma add_task_limit_before_trim_witness :
  50 < Py.len padded_title ∧ Py.len (Py.strip padded_title) = 1
  ∧ ∃ e, TaskService.add_task noon padded_title "x" two_tasks
           = (two_tasks, Raised e)
         ∧ kind e = ValidationError
         ∧ (e = TitleTooLong ∨ (blank padded_title ∧ e = TitleEmpty)).
Proof.
  assert (H : 50 < Py.len padded_title) by reflexivity.
  split; [exact H|]. split; [reflexivity|].
  exact (proj1 (add_task_limit_before_trim padded_title "x" H) noon two_tasks).
Defined.

Lemma from_dict_to_dict_witness :
  valid_record report
  ∧ from_dict noon (to_dict report) = Some report
  ∧ to_dict report !! "created_date" = Some (VStr (created_date report))
  ∧ second_resolution (created_date report) = true.
Proof.
  assert (H : valid_record report).
  { split; [discriminate|]. split; [discriminate|].
    split; [by right | reflexivity]. }
  split; [exact H|]. exact (proj1 from_dict_to_dict noon report H).
Defined.

(** The same in the relational variant, and what a fraction of a second
    does to it. *)
Example relational_round_trip :
  Relational.from_dict row_time (Relational.to_dict row)
    = Some row
  ∧ Relational.to_dict row !! "created_date"
    = Some (Relational.VStr "2025-03-01 09:31:00")
  ∧ Relational.from_dict row_time (Relational.to_dict (fresh_row))
    = Some row.
Proof. repeat split; reflexivity. Qed.

Lemma mark_complete_idempotent_witness :
  let r1 := TaskService.mark_complete noon (Py.Text "1") two_tasks in
  let r2 := TaskService.mark_complete disk_full (Py.Text "1") r1.1 in
  status_of 1 r1.1 = Some "Completed"
  ∧ status_of 1 r2.1 = Some "Completed"
  ∧ tasks r2.1 = tasks r1.1
  ∧ (∀ e, r2.2 = Raised e →
       kind e = PersistenceError ∧ is_Some (write_error disk_full))
  ∧ (write_error noon = None →
       ∃ t, r1.2 = Returned t ∧ task_id t = 1 ∧ status t = "Completed")
  ∧ (write_error disk_full = None →
       ∃ t, r2.2 = Returned t ∧ task_id t = 1 ∧ status t = "Completed").
Proof.
  apply (proj1 mark_complete_idempotent noon disk_full two_tasks (Py.Text "1") 1).
  - reflexivity.
  - apply elem_of_cons. by left.
Defined.


Lemma search_tasks_blank_no_query_witness :
  blank "   "
  ∧ @Relational.TaskService.search_tasks unit
      (Relational.offline "connection refused") "   " ()
    = ((), Returned []).
Proof.
  assert (H : blank "   ") by is_blank.
  split; [exact H|].
  exact (proj1 search_tasks_blank_no_query unit
           (Relational.offline "connection refused") () "   " H).
Defined.


Lemma search_tasks_selected_witness :
  legacy_milk ∈
    Legacy.search_tasks "MILK" (Some "Pending") [legacy_milk; legacy_report].
Proof.
  apply (proj2 (proj1 (proj2 (proj2
           (search_tasks_selected "MILK" (Some "Pending")
              [legacy_milk; legacy_report]))) legacy_milk)).
  split; [apply elem_of_cons; by left|]. split.
  - left. apply contains_lower. reflexivity.
  - by intros st [= <-].
Defined.


Example strptime_examples :
  Datetime.strptime "2025-03-01 09:31:00" = Some row_time
  ∧ Datetime.strptime "2025-3-1  9:31:0" = Some row_time
  ∧ Datetime.strptime "2025-03- 1 09:31:00" = Some row_time
  ∧ Datetime.strptime "2025-02-30 09:31:00" = None
  ∧ Datetime.strptime "2025-03-01 24:00:00" = None
  ∧ Datetime.strptime "2025-03-01 09:31:00.5" = None
  ∧ Datetime.strptime "25-03-01 09:31:00" = None
  ∧ Datetime.strftime row_time = "2025-03-01 09:31:00".
Proof. repeat split; reflexivity. Qed.

Example int_examples :
  Py.int (Py.Text " 42 ") = Some 42 ∧ Py.int (Py.Text "-5") = Some (-5)
  ∧ Py.int (Py.Text "1_000") = Some 1000 ∧ Py.int (Py.Text "abc") = None
  ∧ Py.int (Py.Text "") = None ∧ Py.int (Py.Text "4 2") = None
  ∧ Py.int (Py.Text "1__0") = None ∧ Py.int (Py.Text "+7") = Some 7
  ∧ Py.int (Py.Text "- 7") = None ∧ Py.int (Py.Text "3.5") = None
  ∧ Py.int (Py.Number 999999) = Some 999999.
Proof. repeat split; reflexivity. Qed.

Example text_examples :
  Py.strip "  Buy milk " = "Buy milk" ∧ Py.lower "MILK" = "milk"
  ∧ Py.contains (Py.lower "MILK") (Py.lower "Buy milk") = true
  ∧ Py.contains "report" (Py.lower "Buy milk") = false
  ∧ Py.strip "   " = "" ∧ Py.len padded_title = 51.
Proof. repeat split; reflexivity. Qed.

(** *** The scenarios of the design *)

Example scenario_search_report :
  TaskService.search_tasks "report" two_tasks = (two_tasks, Returned [report]).
Proof. reflexivity. Qed.

Example scenario_search_case :
  TaskService.search_tasks "MILK" two_tasks = (two_tasks, Returned [milk])
  ∧ Legacy.search_tasks "MILK" None [legacy_milk; legacy_report] = [legacy_milk].
Proof. split; reflexivity. Qed.

Example scenario_search_empty :
  TaskService.search_tasks "" two_tasks = (two_tasks, Returned [])
  ∧ Legacy.search_tasks "" None [legacy_milk; legacy_report]
    = [legacy_milk; legacy_report].
Proof. split; reflexivity. Qed.

Example scenario_not_found :
  TaskService.mark_complete noon (Py.Number 999999) empty
    = (empty, Raised (TaskNotFound 999999)).
Proof. reflexivity. Qed.

Example scenario_rejected :
  TaskService.add_task noon "" "x" two_tasks = (two_tasks, Raised TitleEmpty)
  ∧ TaskService.add_task noon "y" "" two_tasks
    = (two_tasks, Raised DescriptionEmpty)
  ∧ TaskService.add_task noon
      "ttttttttttttttttttttttttttttttttttttttttttttttttttt" "x" two_tasks
    = (two_tasks, Raised TitleTooLong).
Proof. repeat split; reflexivity. Qed.

Example scenario_add_then_restart :
  let s := (TaskService.add_task noon " Call Ana " "About the report" two_tasks).1 in
  tasks s = [milk; report;
             {| task_id := 3; title := "Call Ana";
                description := "About the report"; status := "Pending";
                created_date := "2025-03-01 12:00:00" |}]
  ∧ tasks (load_tasks disk_full (file s)) = tasks s.
Proof. split; reflexivity. Qed.

(** A failed write leaves the new record in the list and not in the file. *)
Example scenario_disk_full :
  let r := TaskService.add_task disk_full "Call Ana" "About the report" two_tasks in
  r.2 = Raised (Failed "save tasks" "No space left on device")
  ∧ length (tasks r.1) = 3%nat ∧ file r.1 = file two_tasks.
Proof. repeat split; reflexivity. Qed.

(** An empty creation time does not survive the round trip: the clock
    takes its place. *)
Example scenario_empty_date :
  from_dict noon (to_dict (init noon 7 "t" "d" (Some "Pending") (Some "")))
    = Some (init noon 7 "t" "d" (Some "Pending") (Some "2025-03-01 12:00:00")).
Proof. reflexivity. Qed.
End Examples.

(** * Further properties of the code *)

(** ** The file-backed repository and its service *)

Section FileBackedMoreFacts.
Import FileBacked FileBacked.TaskRepository FileBackedNotions FileBackedMore.

Ltac run :=
  unfold TaskService.add_task, TaskService.mark_complete,
    TaskService.delete_task, TaskService.search_tasks, TaskService.list_tasks,
    add_task, update_task, delete_task, find_task_by_id, get_all_tasks,
    assign_status, get_next_id, save_tasks, read_tasks, write_tasks,
    with_tasks, raise, mbind, mret, M_bind, M_ret; cbn.

(** What the repository's [delete_task] and [update_task] do at the
    position they find. *)
Lemma repo_delete_task_eq (w : World) (s : state) (i : Z) (n : nat) :
  index_of i (tasks s) = Some n →
  delete_task w i s =
    match write_error w with
    | None =>
        ({| tasks := delete n (tasks s);
            file := Some (to_dict <$> delete n (tasks s)) |},
         Returned (tasks s !! n))
    | Some cause =>
        ({| tasks := delete n (tasks s); file := file s |},
         Raised (Failed "save tasks" cause))
    end.
Proof. intros E. run. rewrite E. run. by destruct (write_error w). Qed.

Lemma repo_update_task_eq (w : World) (s : state) (task : TaskModel) (n : nat) :
  index_of (task_id task) (tasks s) = Some n →
  update_task w task s =
    match write_error w with
    | None =>
        ({| tasks := <[n := task]> (tasks s);
            file := Some (to_dict <$> <[n := task]> (tasks s)) |},
         Returned true)
    | Some cause =>
        ({| tasks := <[n := task]> (tasks s); file := file s |},
         Raised (Failed "save tasks" cause))
    end.
Proof. intros E. run. rewrite E. run. by destruct (write_error w). Qed.

Lemma filter_other_ids (i : Z) (l : list TaskModel) :
  i ∉ ids l → filter (λ t, task_id t ≠ i) l = l.
Proof.
  unfold ids. induction l as [|t l IH]; [done|]. rewrite fmap_cons.
  intros [Ht Hl]%not_elem_of_cons.
  rewrite filter_cons_True by congruence. by rewrite IH.
Qed.

(** Where ids are distinct, taking out the first record with an id takes
    out every record with it. *)
Lemma delete_index_filter (i : Z) (l : list TaskModel) (n : nat) :
  NoDup (ids l) → index_of i l = Some n →
  delete n l = filter (λ t, task_id t ≠ i) l.
Proof.
  unfold ids. revert n. induction l as [|t l IH]; intros n Hd; [done|].
  rewrite fmap_cons in Hd. apply NoDup_cons in Hd as [Ht Hd].
  cbn [index_of]. case_bool_decide as E.
  - intros [= <-]. rewrite filter_cons_False by (intros ?; done).
    subst i. by rewrite filter_other_ids.
  - intros (n' & Hn' & ->)%fmap_Some.
    rewrite filter_cons_True by done. cbn [delete list_delete].
    f_equal. by apply IH.
Qed.

(** X1. In a store whose ids are distinct, [delete] of a live id takes the
    record out and leaves the others in their order: [find] with the id then
    finds nothing.  The record is returned when the file can be written. *)
Theorem delete_task_then_find (w : World) (s : state) (x : Py.ident) (i : Z) :
  Py.int x = Some i → live i s → unique_ids s →
  let r := TaskService.delete_task w x s in
  tasks r.1 = filter (λ t, task_id t ≠ i) (tasks s)
  ∧ ¬ live i r.1
  ∧ find_task_by_id i r.1 = (r.1, Returned None)
  ∧ length (tasks r.1) = pred (length (tasks s))
  ∧ (write_error w = None →
       ∃ t, r.2 = Returned t ∧ task_id t = i ∧ t ∈ tasks s).
Proof.
  intros Hx Hi Hu r. destruct (index_of_is_Some _ _ Hi) as [n Hn].
  destruct (index_of_Some _ _ _ Hn) as (t & Ht & Hid & _).
  assert (Hr : r = match write_error w with
                   | None =>
                       ({| tasks := delete n (tasks s);
                           file := Some (to_dict <$> delete n (tasks s)) |},
                        Returned t)
                   | Some cause =>
                       ({| tasks := delete n (tasks s); file := file s |},
                        Raised (Failed "save tasks" cause))
                   end).
  { subst r. unfold TaskService.delete_task. rewrite Hx.
    cbv beta delta [mbind M_bind]. rewrite (repo_delete_task_eq w s i n Hn), Ht.
    by destruct (write_error w). }
  assert (Hl : tasks r.1 = delete n (tasks s)).
  { rewrite Hr. by destruct (write_error w). }
  assert (Hf : tasks r.1 = filter (λ t, task_id t ≠ i) (tasks s)).
  { rewrite Hl. by apply delete_index_filter. }
  assert (Hgone : ¬ live i r.1).
  { unfold live, ids. rewrite Hf. intros (u & Hu1 & Hu2)%list_elem_of_fmap.
    apply list_elem_of_filter in Hu2 as [Hu2 _]. congruence. }
  split; [done|]. split; [done|]. split.
  - apply index_of_None in Hgone. run. by rewrite Hgone.
  - split.
    + rewrite Hl, length_delete by eauto. lia.
    + intros Hw. exists t. rewrite Hr, Hw. cbn.
      split; [done|]. split; [done|]. by eapply list_elem_of_lookup_2.
Qed.

(** X2. [update] and [delete] of an id no record has change nothing and
    write nothing: they return [False] and [None] even while the file cannot
    be written. *)
Theorem absent_id_no_write (w : World) (s : state) (task : TaskModel) (i : Z) :
  ¬ live i s → task_id task = i →
  update_task w task s = (s, Returned false)
  ∧ delete_task w i s = (s, Returned None).
Proof.
  intros Hi%index_of_None <-. run. by rewrite Hi.
Qed.

(** X3. [update] puts the given record in the place of the first record
    with its id: the list keeps its length and its ids, and [find] with the
    id then returns the given record. *)
Theorem update_task_replaces (w : World) (s : state) (task : TaskModel) :
  live (task_id task) s →
  let r := update_task w task s in
  ∃ n, index_of (task_id task) (tasks s) = Some n
       ∧ tasks r.1 = <[n := task]> (tasks s)
       ∧ ids (tasks r.1) = ids (tasks s)
       ∧ length (tasks r.1) = length (tasks s)
       ∧ find_task_by_id (task_id task) r.1 = (r.1, Returned (Some task))
       ∧ (write_error w = None → r.2 = Returned true).
Proof.
  intros Hi r. destruct (index_of_is_Some _ _ Hi) as [n Hn].
  destruct (index_of_Some _ _ _ Hn) as (t & Ht & Hid & _).
  exists n. split; [done|]. subst r. rewrite (repo_update_task_eq w s task n Hn).
  assert (Hids : ids (<[n := task]> (tasks s)) = ids (tasks s)).
  { by apply (ids_insert _ _ _ t). }
  assert (Hfind : ∀ f, find_task_by_id (task_id task)
                     {| tasks := <[n := task]> (tasks s); file := f |}
                   = ({| tasks := <[n := task]> (tasks s); file := f |},
                      Returned (Some task))).
  { intros f. run.
    rewrite (index_of_ids _ _ (tasks s) Hids), Hn. cbn.
    rewrite list_lookup_insert_eq; [done|]. by eapply lookup_lt_Some. }
  destruct (write_error w); cbn; rewrite ?length_insert; auto 10.
  repeat split; auto. done.
Qed.

(** X4. A call that changes the list and can write the file leaves the
    file holding the serialized list, record for record: [add] always,
    [update], [delete] and [mark_complete] on a live id. *)
Theorem successful_write_mirrors (w : World) (s : state) :
  write_error w = None →
  (∀ title description, mirrored (add_task w title description s).1)
  ∧ (∀ task, live (task_id task) s → mirrored (update_task w task s).1)
  ∧ (∀ i, live i s → mirrored (delete_task w i s).1)
  ∧ (∀ x i, Py.int x = Some i → live i s →
       mirrored (TaskService.mark_complete w x s).1).
Proof.
  intros Hw. unfold mirrored. repeat split.
  - intros title description.
    destruct (repo_add_task_eq w s title description) as (m & _ & _ & ->).
    cbn zeta. by rewrite Hw.
  - intros task [n Hn]%index_of_is_Some.
    by rewrite (repo_update_task_eq w s task n Hn), Hw.
  - intros i [n Hn]%index_of_is_Some.
    by rewrite (repo_delete_task_eq w s i n Hn), Hw.
  - intros x i Hx Hi.
    destruct (mark_complete_live w s x i Hx Hi) as (n & t & _ & _ & _ & ->).
    cbn zeta. by rewrite Hw.
Qed.

(** X5. A write that fails makes [add], [update] and [delete] raise the
    failed-write error after the list has changed: the list is one record
    longer after [add], one shorter after [delete] of a live id, and holds
    the new record after [update] of a live id. *)
Theorem failed_write_keeps_change (w : World) (s : state) (cause : string) :
  write_error w = Some cause →
  (∀ title description,
     let r := add_task w title description s in
     r.2 = Raised (Failed "save tasks" cause)
     ∧ length (tasks r.1) = S (length (tasks s)))
  ∧ (∀ i, live i s →
       let r := delete_task w i s in
       r.2 = Raised (Failed "save tasks" cause)
       ∧ S (length (tasks r.1)) = length (tasks s))
  ∧ (∀ task, live (task_id task) s →
       let r := update_task w task s in
       r.2 = Raised (Failed "save tasks" cause)
       ∧ task ∈ tasks r.1).
Proof.
  intros Hw. split; [|split].
  - intros title description.
    destruct (repo_add_task_eq w s title description) as (m & _ & _ & ->).
    cbn zeta. rewrite Hw. cbn. rewrite length_app. cbn.
    split; [done|]. lia.
  - intros i [n Hn]%index_of_is_Some.
    rewrite (repo_delete_task_eq w s i n Hn), Hw. cbn.
    destruct (index_of_Some _ _ _ Hn) as (t & Ht & _).
    rewrite length_delete by eauto. apply lookup_lt_Some in Ht.
    split; [done|]. lia.
  - intros task [n Hn]%index_of_is_Some.
    rewrite (repo_update_task_eq w s task n Hn), Hw. cbn.
    destruct (index_of_Some _ _ _ Hn) as (t & Ht & _).
    split; [done|].
    apply list_elem_of_insert. by eapply lookup_lt_Some.
Qed.

(** What [load_tasks] makes of a file of serialized records. *)
Lemma load_tasks_serialized (w : World) (l : list TaskModel) :
  tasks (load_tasks w (Some (to_dict <$> l)))
  = (λ r, init w (task_id r) (title r) (description r)
            (Some (status r)) (Some (created_date r))) <$> l.
Proof.
  cbn. set (fix_date := λ r, init w _ _ _ _ _).
  assert (mapM (from_dict w) (to_dict <$> l) = Some (fix_date <$> l)) as ->; [|done].
  apply mapM_Some, Forall2_fmap, Forall2_same_length_lookup.
  split; [done|]. intros n a b Ha Hb. by simplify_eq.
Qed.

(** X6. A process started over a file that holds the serialized list finds
    the same records with the same fields, provided no creation time is
    empty; an empty one is replaced by the clock of the new process. *)
Theorem restart_restores (w : World) (s : state) :
  mirrored s →
  (Forall (λ t, created_date t ≠ "") (tasks s) →
     tasks (load_tasks w (file s)) = tasks s)
  ∧ file (load_tasks w (file s)) = file s
  ∧ length (tasks (load_tasks w (file s))) = length (tasks s)
  ∧ ∀ n t, tasks s !! n = Some t → created_date t = "" →
      created_date <$> tasks (load_tasks w (file s)) !! n = Some (now w).
Proof.
  intros Hm. rewrite Hm, load_tasks_serialized.
  split; [|split; [done|split]].
  - intros Hd. rewrite <- (list_fmap_id (tasks s)) at 2.
    apply Forall_fmap_ext_1. eapply Forall_impl; [exact Hd|].
    intros [i t d st cd] Hcd. cbn in *. unfold init. cbn.
    by destruct cd.
  - by rewrite length_fmap.
  - intros n t Ht Hcd. rewrite list_lookup_fmap, Ht. cbn. by rewrite Hcd.
Qed.

Lemma from_dict_missing_key (w : World) (d : gmap string value) (k : string) :
  k ∈ ["id"; "title"; "description"; "status"; "created_date"] →
  d !! k = None → from_dict w d = None.
Proof.
  intros Hk Hd. unfold from_dict. rewrite !elem_of_cons in Hk.
  destruct Hk as [->|[->|[->|[->|[->|[]%elem_of_nil]]]]]; rewrite Hd.
  - done.
  - by destruct (d !! "id" ≫= as_int).
  - destruct (d !! "id" ≫= as_int); [|done]. cbn.
    by destruct (d !! "title" ≫= as_str).
  - destruct (d !! "id" ≫= as_int); [|done]. cbn.
    destruct (d !! "title" ≫= as_str); [|done]. cbn.
    by destruct (d !! "description" ≫= as_str).
  - destruct (d !! "id" ≫= as_int); [|done]. cbn.
    destruct (d !! "title" ≫= as_str); [|done]. cbn.
    destruct (d !! "description" ≫= as_str); [|done]. cbn.
    by destruct (d !! "status" ≫= as_str).
Qed.

(** X7. One entry of the file that lacks a key costs the whole list: the
    process starts with no task, and its next [add] that can write the file
    gives the id 1 and leaves that one record in the file. *)
Theorem malformed_entry_empties_store (w w' : World)
    (ds : list (gmap string value)) (d : gmap string value) (k : string) :
  d ∈ ds →
  k ∈ ["id"; "title"; "description"; "status"; "created_date"] →
  d !! k = None →
  let s := load_tasks w (Some ds) in
  tasks s = [] ∧ file s = Some ds
  ∧ (write_error w' = None →
       ∀ title description,
         let r := add_task w' title description s in
         let t := init w' 1 title description None None in
         r.2 = Returned t ∧ tasks r.1 = [t] ∧ file r.1 = Some [to_dict t]).
Proof.
  intros Hd Hk Hmiss s.
  assert (Hs : tasks s = []).
  { subst s. cbn. replace (mapM (from_dict w) ds) with (@None (list TaskModel)); [done|].
    symmetry. apply mapM_None, Exists_exists. exists d.
    split; [done|]. by apply (from_dict_missing_key w d k). }
  assert (Hf : file s = Some ds) by done. clearbody s.
  split; [done|]. split; [done|]. intros Hw title description.
  destruct (repo_add_task_eq w' s title description) as (m & Hmax & _ & ->).
  rewrite Hs in *. cbn in Hmax. subst m. cbn zeta. by rewrite Hw.
Qed.

(** X8. [delete] of the id [add] has just given takes the list back to
    what it was, and the next [add] gives that id again: ids are reused. *)
Theorem add_delete_add_reuses_id (w1 w2 w3 : World) (s : state)
    (title description title' description' : string) :
  let s1 := (add_task w1 title description s).1 in
  ∃ new, tasks s1 = tasks s ++ [new]
    ∧ (∀ i, i ∈ ids (tasks s) → i < task_id new)
    ∧ let s2 := (delete_task w2 (task_id new) s1).1 in
      tasks s2 = tasks s
      ∧ ∃ again, tasks (add_task w3 title' description' s2).1
                 = tasks s ++ [again]
                 ∧ task_id again = task_id new.
Proof.
  intros s1.
  destruct (repo_add_task_eq w1 s title description) as (m & Hmax & Hnew & E1).
  set (new := init w1 (m + 1) title description None None) in *.
  assert (H1 : tasks s1 = tasks s ++ [new]).
  { subst s1. rewrite E1. cbn zeta. by destruct (write_error w1). }
  exists new. split; [done|]. split; [exact Hnew|].
  assert (Hfresh : task_id new ∉ ids (tasks s)).
  { intros H%Hnew. cbn in H. lia. }
  assert (Hn : index_of (task_id new) (tasks s1) = Some (length (tasks s))).
  { rewrite H1. by apply index_of_app_new. }
  assert (H2 : tasks (delete_task w2 (task_id new) s1).1 = tasks s).
  { rewrite (repo_delete_task_eq w2 s1 _ _ Hn), H1.
    assert (Hdel : ∀ l : list TaskModel, delete (length l) (l ++ [new]) = l).
    { induction l as [|a l IH]; cbn; [done | by f_equal]. }
    destruct (write_error w2); cbn; by rewrite Hdel. }
  cbn zeta. split; [done|].
  destruct (repo_add_task_eq w3 (delete_task w2 (task_id new) s1).1
              title' description') as (m' & Hmax' & _ & E3).
  rewrite H2 in Hmax'.
  assert (m' = m) as ->.
  { unfold max_existing_id in *. destruct (tasks s); [congruence|].
    destruct Hmax as [Ha Hb], Hmax' as [Ha' Hb'].
    specialize (Hb _ Ha'). specialize (Hb' _ Ha). lia. }
  exists (init w3 (m + 1) title' description' None None).
  rewrite E3, H2. cbn zeta. split; [|done]. by destruct (write_error w3).
Qed.
End FileBackedMoreFacts.

(** ** What every record of the store satisfies *)

Section RecordInvariants.
Import FileBacked FileBacked.TaskRepository FileBackedNotions FileBackedMore.

Variable P : TaskModel → Prop.
Hypothesis P_completed : ∀ t, P t → P (set_status "Completed" t).
Hypothesis P_reloaded : ∀ w t,
  P t → P (init w (task_id t) (title t) (description t)
             (Some (status t)) (Some (created_date t))).

Lemma all_save_tasks (w : World) (s : state) (l : list TaskModel) :
  Forall P l → all_records P s →
  all_records P (save_tasks w (with_tasks l s)).1.
Proof.
  intros Hl [_ Hf]. unfold save_tasks, with_tasks.
  destruct (write_error w); cbn; (split; [done|]); [done|].
  intros ds [= <-]. eauto.
Qed.

Lemma all_repo_add (w : World) (s : state) (title description : string) :
  (∀ m, max_existing_id (tasks s) m →
        P (init w (m + 1) title description None None)) →
  all_records P s → all_records P (add_task w title description s).1.
Proof.
  intros Hnew Hs.
  destruct (repo_add_task_eq w s title description) as (m & Hm & _ & E).
  assert (Hl : Forall P (tasks s ++ [init w (m + 1) title description None None])).
  { apply Forall_app. split; [apply Hs|]. apply Forall_singleton. auto. }
  pose proof (all_save_tasks w s _ Hl Hs) as H.
  rewrite E. cbn zeta. unfold save_tasks, with_tasks in H.
  by destruct (write_error w).
Qed.

Lemma all_repo_update (w : World) (s : state) (task : TaskModel) :
  (live (task_id task) s → P task) →
  all_records P s → all_records P (update_task w task s).1.
Proof.
  intros Ht Hs. unfold update_task. cbv beta delta [mbind M_bind]. cbn.
  destruct (index_of (task_id task) (tasks s)) as [n|] eqn:E; [|done].
  assert (Hl : Forall P (<[n := task]> (tasks s))).
  { apply Forall_insert; [apply Hs|]. apply Ht.
    destruct (index_of_Some _ _ _ E) as (u & Hu & Hid & _).
    unfold live, ids. rewrite <- Hid.
    apply list_elem_of_fmap_2. by eapply list_elem_of_lookup_2. }
  pose proof (all_save_tasks w s _ Hl Hs) as H.
  by destruct (save_tasks w _) as [s' [[]|e]].
Qed.

Lemma all_repo_delete (w : World) (s : state) (i : Z) :
  all_records P s → all_records P (delete_task w i s).1.
Proof.
  intros Hs. unfold delete_task. cbv beta delta [mbind M_bind]. cbn.
  destruct (index_of i (tasks s)) as [n|]; [|done].
  assert (Hl : Forall P (delete n (tasks s))).
  { apply Forall_delete, Hs. }
  pose proof (all_save_tasks w s _ Hl Hs) as H.
  by destruct (save_tasks w _) as [s' [[]|e]].
Qed.

Lemma all_service_delete (w : World) (s : state) (x : Py.ident) :
  all_records P s → all_records P (TaskService.delete_task w x s).1.
Proof.
  intros Hs. unfold TaskService.delete_task.
  destruct (Py.int x) as [i|]; [|done]. cbv beta delta [mbind M_bind].
  pose proof (all_repo_delete w s i Hs) as H.
  by destruct (delete_task w i s) as [s1 [[r|]|e]].
Qed.

Lemma all_mark_complete (w : World) (s : state) (x : Py.ident) :
  all_records P s → all_records P (TaskService.mark_complete w x s).1.
Proof.
  intros Hs. destruct (Py.int x) as [i|] eqn:Hx.
  - destruct (decide (i ∈ ids (tasks s))) as [Hi|Hi].
    + destruct (mark_complete_live w s x i Hx Hi) as (n & t & _ & Ht & _ & E).
      assert (Hl : Forall P (<[n := set_status "Completed" t]> (tasks s))).
      { apply Forall_insert; [apply Hs|]. apply P_completed.
        destruct Hs as [Hs _]. rewrite Forall_lookup in Hs. eauto. }
      pose proof (all_save_tasks w s _ Hl Hs) as H.
      rewrite E. cbn zeta. unfold save_tasks, with_tasks in H.
      by destruct (write_error w).
    + by rewrite (mark_complete_absent w s x i Hx Hi).
  - unfold TaskService.mark_complete. by rewrite Hx.
Qed.

Lemma all_restart (w : World) (s : state) :
  all_records P s → all_records P (load_tasks w (file s)).
Proof.
  intros [_ Hf]. destruct (file s) as [ds|] eqn:E.
  - destruct (Hf ds eq_refl) as (l & -> & Hl). split.
    + rewrite load_tasks_serialized. apply Forall_fmap.
      eapply Forall_impl; [exact Hl|]. intros t Ht. by apply P_reloaded.
    + intros ds' [= <-]. eauto.
  - split; [by constructor | done].
Qed.
End RecordInvariants.

Section FileBackedInvariants.
Import FileBacked FileBacked.TaskRepository FileBackedNotions FileBackedMore.

Lemma lstrip_length (l : list ascii) :
  (length (Py.lstrip_chars l) ≤ length l)%nat.
Proof.
  induction l as [|c l IH]; cbn; [done|]. destruct (Py.is_space c); cbn; lia.
Qed.

Lemma len_strip_le (s : string) : Py.len (Py.strip s) ≤ Py.len s.
Proof.
  unfold Py.len, Py.strip. rewrite chars_str.
  unfold Py.strip_chars, Py.rstrip_chars. rewrite length_reverse.
  pose proof (lstrip_length (reverse (Py.lstrip_chars (Py.chars s)))) as H1.
  rewrite length_reverse in H1.
  pose proof (lstrip_length (Py.chars s)). lia.
Qed.

Lemma tidy_new (w : World) (i : Z) (title description : string) :
  acceptable title description →
  tidy (init w i (Py.strip title) (Py.strip description) None None).
Proof.
  intros (Ht & Hl & Hd). pose proof (len_strip_le title).
  unfold tidy, init.
  cbn [FileBacked.title FileBacked.description FileBacked.status default].
  split; [apply strip_idemp|].
  split; [intros Hb; by apply Ht, blank_strip|]. split; [lia|].
  split; [apply strip_idemp|].
  split; [intros Hb; by apply Hd, blank_strip | by left].
Qed.

(** X9. In a store that only the service has touched, every record has a
    trimmed title that is not blank and has at most 50 characters, a
    trimmed description that is not blank, and the status Pending or
    Completed; so has every record of the file. *)
Theorem service_keeps_records_tidy (s : state) :
  service_reachable s → all_records tidy s.
Proof.
  assert (Hc : ∀ t, tidy t → tidy (set_status "Completed" t)).
  { intros t (H1 & H2 & H3 & H4 & H5 & _). unfold tidy. cbn. auto 10. }
  assert (Hr : ∀ w t, tidy t →
            tidy (init w (task_id t) (title t) (description t)
                    (Some (status t)) (Some (created_date t)))).
  { intros w t Ht. exact Ht. }
  induction 1 as [w|s s' _ IH Hstep].
  - split; [by constructor | done].
  - destruct Hstep as [w title description| |w x|w x|keyword|w].
    + destruct (service_add_task_cases w s title description)
        as [[_ ->]|[(_ & _ & ->)|[(_ & _ & _ & ->)|[Hok ->]]]]; try done.
      apply all_repo_add; [|done]. intros m _. by apply tidy_new.
    + done.
    + by apply all_mark_complete.
    + by apply all_service_delete.
    + unfold TaskService.search_tasks. by repeat case_match.
    + by apply all_restart.
Qed.

(** X10. In every state the store reaches, ids are positive: [add] gives
    1 in an empty store and one more than the greatest id otherwise, and no
    method changes the id of a record. *)
Theorem reachable_ids_positive (s : state) :
  reachable s → all_records positive_id s.
Proof.
  assert (Hc : ∀ t, positive_id t → positive_id (set_status "Completed" t)).
  { by intros t Ht. }
  assert (Hr : ∀ w t, positive_id t →
            positive_id (init w (task_id t) (title t) (description t)
                           (Some (status t)) (Some (created_date t)))).
  { by intros w t Ht. }
  assert (Hadd : ∀ w s title description,
            all_records positive_id s →
            all_records positive_id (add_task w title description s).1).
  { intros w s0 title description Hs. apply all_repo_add; [|done].
    intros m Hm. unfold positive_id. cbn. destruct Hs as [Hs _].
    unfold max_existing_id in Hm. destruct (tasks s0) as [|t l]; [lia|].
    destruct Hm as [Hm _]. apply list_elem_of_fmap in Hm as (u & -> & Hu).
    rewrite Forall_forall in Hs. specialize (Hs u Hu).
    unfold positive_id in Hs. lia. }
  induction 1 as [w|s s' _ IH Hstep].
  - split; [by constructor | done].
  - destruct Hstep as [w t d|w task|w i|w t d|w x|w x|kw|w].
    + by apply Hadd.
    + apply all_repo_update; [|done]. intros Hi.
      apply list_elem_of_fmap in Hi as (u & Hid & Hu). destruct IH as [Hs _].
      rewrite Forall_forall in Hs. specialize (Hs u Hu).
      unfold positive_id in *. lia.
    + by apply all_repo_delete.
    + destruct (service_add_task_cases w s t d)
        as [[_ ->]|[(_ & _ & ->)|[(_ & _ & _ & ->)|[Hok ->]]]]; try done.
      by apply Hadd.
    + by apply all_mark_complete.
    + by apply all_service_delete.
    + unfold TaskService.search_tasks. by repeat case_match.
    + by apply all_restart.
Qed.
End FileBackedInvariants.

Section FileBackedStatus.
Import FileBacked FileBacked.TaskRepository FileBackedNotions FileBackedMore.

(** X11. [mark_complete] on a live id changes the status of the first
    record with that id and nothing else: the list keeps its length, every
    record keeps its id, title, description and creation time, the records
    at the other places and the records already Completed stay as they
    are. *)
Theorem mark_complete_only_status (w : World) (s : state) (x : Py.ident) (i : Z) :
  Py.int x = Some i → live i s →
  let r := TaskService.mark_complete w x s in
  ∃ n, index_of i (tasks s) = Some n
    ∧ length (tasks r.1) = length (tasks s)
    ∧ ∀ k t, tasks s !! k = Some t →
        ∃ t', tasks r.1 !! k = Some t'
          ∧ task_id t' = task_id t ∧ title t' = title t
          ∧ description t' = description t
          ∧ created_date t' = created_date t
          ∧ (k = n → status t' = "Completed")
          ∧ (k ≠ n → t' = t)
          ∧ (status t = "Completed" → t' = t).
Proof.
  intros Hx Hi r.
  destruct (mark_complete_live w s x i Hx Hi) as (n & t0 & Hn & Ht0 & _ & E).
  exists n. split; [done|].
  assert (Hl : tasks r.1 = <[n := set_status "Completed" t0]> (tasks s)).
  { subst r. rewrite E. cbn zeta. by destruct (write_error w). }
  rewrite Hl, length_insert. split; [done|]. intros k t Hk.
  destruct (decide (k = n)) as [->|Hne].
  - rewrite Ht0 in Hk. injection Hk as <-.
    exists (set_status "Completed" t0).
    rewrite list_lookup_insert_eq by (by eapply lookup_lt_Some).
    repeat split; try done. intros Hst. destruct t0; cbn in *. by subst.
  - exists t. rewrite list_lookup_insert_ne by done. by repeat split.
Qed.
End FileBackedStatus.

(** ** The relational record *)

Section RelationalMoreFacts.
Import Datetime Relational.

Lemma strptime_strftime_gen (d : datetime) :
  valid d = true →
  strptime (strftime d)
  = Some {| year := year d; month := month d; day := day d;
            hour := hour d; minute := minute d; second := second d;
            microsecond := 0 |}.
Proof.
  intros Hv.
  set (d0 := {| year := year d; month := month d; day := day d;
                hour := hour d; minute := minute d; second := second d;
                microsecond := 0 |}).
  assert (Hv0 : valid d0 = true).
  { unfold valid in *. cbn. rewrite !andb_true_iff in *. tauto. }
  change (strftime d) with (strftime d0).
  by apply strptime_strftime.
Qed.

(** X12. Serializing a record drops the fraction of a second of its
    creation time and nothing else: for a date with a year of four digits,
    [from_dict (to_dict r)] is [r] with the microseconds set to 0, and it
    serializes to the very dict [r] does. *)
Theorem to_dict_drops_microseconds (now : datetime) (r : TaskModel) (d : datetime) :
  created_date r = Moment d → valid d = true → 1000 ≤ year d →
  let r' := {| task_id := task_id r; title := title r;
               description := description r; status := status r;
               created_date :=
                 Moment {| year := year d; month := month d; day := day d;
                           hour := hour d; minute := minute d;
                           second := second d; microsecond := 0 |} |} in
  from_dict now (to_dict r) = Some r'
  ∧ to_dict r' = to_dict r
  ∧ (microsecond d ≠ 0 → from_dict now (to_dict r) ≠ Some r).
Proof.
  intros Hcd Hv _ r'.
  assert (Hl : to_dict r !! "created_date" = Some (VStr (strftime d))).
  { unfold to_dict. rewrite Hcd. reflexivity. }
  assert (H1 : from_dict now (to_dict r) = Some r').
  { unfold from_dict. rewrite Hl. cbn [mbind option_bind].
    rewrite (strptime_strftime_gen d Hv). reflexivity. }
  split; [done|]. split.
  - unfold to_dict. rewrite Hcd. reflexivity.
  - intros Hus. rewrite H1. intros [= E]. destruct r as [i t ds st cd].
    cbn in *. subst cd. injection E as E.
    apply (f_equal microsecond) in E. cbn in E. congruence.
Qed.
End RelationalMoreFacts.

(** ** Integers as text *)

Section PyFormatFacts.
Import Py PyFormat.

Lemma digit_char_plain (k : Z) :
  0 ≤ k ≤ 9 →
  int_space (Datetime.digit_char k) = false
  ∧ Datetime.digit_char k ≠ "-"%char
  ∧ Datetime.digit_char k ≠ "+"%char
  ∧ Datetime.digit_char k ≠ "]"%char.
Proof.
  intros H.
  assert (Hk : k = 0 ∨ k = 1 ∨ k = 2 ∨ k = 3 ∨ k = 4 ∨ k = 5 ∨ k = 6
               ∨ k = 7 ∨ k = 8 ∨ k = 9) by lia.
  repeat (destruct Hk as [->|Hk]; [by repeat split|]).
  subst k. by repeat split.
Qed.

Lemma decimal_S (f : nat) (n : Z) (acc : list ascii) :
  decimal (S f) n acc =
    if n <? 10 then Datetime.digit_char (n mod 10) :: acc
    else decimal f (n / 10) (Datetime.digit_char (n mod 10) :: acc).
Proof. done. Qed.

(** Reading the digits [decimal] writes gives the number back. *)
Lemma digits_decimal (f : nat) (n : Z) (acc : list ascii) (b : bool) :
  0 ≤ n < 2 ^ Z.of_nat (S f) →
  digits 0 b (decimal (S f) n acc) = digits n true acc.
Proof.
  revert n acc b. induction f as [|f IH]; intros n acc b Hn.
  - rewrite decimal_S.
    assert ((n <? 10) = true) as -> by (apply Z.ltb_lt; cbn in Hn; lia).
    cbn [digits]. rewrite digit_digit_char by (Z.div_mod_to_equations; lia).
    f_equal. Z.div_mod_to_equations. lia.
  - rewrite decimal_S. destruct (Z.ltb_spec n 10) as [Hlt|Hge].
    + cbn [digits]. rewrite digit_digit_char by (Z.div_mod_to_equations; lia).
      f_equal. Z.div_mod_to_equations. lia.
    + rewrite IH.
      * cbn [digits]. rewrite digit_digit_char by (Z.div_mod_to_equations; lia).
        f_equal. Z.div_mod_to_equations. lia.
      * rewrite Nat2Z.inj_succ, Z.pow_succ_r in Hn by lia.
        Z.div_mod_to_equations. lia.
Qed.

Lemma digits_decimal_chars (n : Z) (b : bool) :
  0 ≤ n → digits 0 b (decimal_chars n) = Some n.
Proof.
  intros Hn. unfold decimal_chars. rewrite digits_decimal; [done|].
  split; [done|]. rewrite Nat2Z.inj_succ, Z2Nat.id by apply Z.log2_nonneg.
  destruct (decide (n = 0)) as [->|Hne]; [done|].
  apply Z.log2_spec. lia.
Qed.

Lemma decimal_digit_chars (f : nat) (n : Z) (acc : list ascii) :
  Forall (λ c, ∃ k, 0 ≤ k ≤ 9 ∧ c = Datetime.digit_char k) acc →
  Forall (λ c, ∃ k, 0 ≤ k ≤ 9 ∧ c = Datetime.digit_char k) (decimal f n acc).
Proof.
  revert n acc. induction f as [|f IH]; intros n acc Hacc; [done|].
  rewrite decimal_S.
  assert (Forall (λ c, ∃ k, 0 ≤ k ≤ 9 ∧ c = Datetime.digit_char k)
            (Datetime.digit_char (n mod 10) :: acc)).
  { constructor; [|done]. exists (n mod 10).
    split; [Z.div_mod_to_equations; lia | done]. }
  destruct (n <? 10); auto.
Qed.

(** [str(n)] is made of digits after a possible minus sign. *)
Lemma str_of_int_plain (n : Z) :
  Forall (λ c, int_space c = false ∧ c ≠ "]"%char) (str_of_int_chars n).
Proof.
  assert (H : ∀ m, Forall (λ c, int_space c = false ∧ c ≠ "]"%char)
                     (decimal_chars m)).
  { intros m. eapply Forall_impl.
    - apply (decimal_digit_chars _ m []). constructor.
    - intros c (k & Hk & ->). split; by apply digit_char_plain. }
  unfold str_of_int_chars. destruct (n <? 0); [|apply H].
  constructor; [done | apply H].
Qed.

Lemma int_lstrip_id (l : list ascii) :
  Forall (λ c, int_space c = false) l → int_lstrip l = l.
Proof. destruct 1 as [|c l Hc _]; cbn; [done|]. by rewrite Hc. Qed.

(** [int(str(n)) == n] *)
Lemma int_str_of_int (n : Z) : int_chars (str_of_int_chars n) = Some n.
Proof.
  assert (Hp : Forall (λ c, int_space c = false) (str_of_int_chars n)).
  { eapply Forall_impl; [apply str_of_int_plain|]. by intros c [? _]. }
  unfold int_chars. rewrite (int_lstrip_id _ Hp).
  rewrite int_lstrip_id by (by apply Forall_reverse).
  rewrite reverse_involutive. unfold str_of_int_chars.
  destruct (Z.ltb_spec n 0) as [Hneg|Hpos].
  - rewrite bool_decide_true by done.
    rewrite digits_decimal_chars by lia. cbn. f_equal. lia.
  - pose proof (digits_decimal_chars n false Hpos) as Hd.
    pose proof (decimal_digit_chars (S (Z.to_nat (Z.log2 n))) n []
                  (Forall_nil_2 _)) as Hc.
    fold (decimal_chars n) in Hc.
    destruct (decimal_chars n) as [|c l] eqn:E; [done|].
    apply Forall_cons in Hc as [(k & Hk & ->) _].
    destruct (digit_char_plain k Hk) as (_ & Hm & Hpl & _).
    by rewrite !bool_decide_false.
Qed.

Lemma before_app (c : ascii) (l rest : list ascii) :
  Forall (λ a, a ≠ c) l → before c (l ++ c :: rest) = l.
Proof.
  induction 1 as [|a l Ha _ IH]; cbn.
  - by rewrite bool_decide_true.
  - rewrite bool_decide_false by done. by rewrite IH.
Qed.
End PyFormatFacts.

(** ** The dict-based manager *)

Section TaskManagerFacts.
Import Legacy TaskManager.

Lemma save_tasks_tasks (w : FileBacked.World) (s : state) :
  tasks (save_tasks w s).1 = tasks s.
Proof. unfold save_tasks. by destruct (FileBacked.write_error w). Qed.

Lemma get_next_id_above (s : state) :
  ∀ t, t ∈ tasks s → id t < get_next_id s.
Proof.
  unfold get_next_id. destruct (tasks s) as [|u l]; [by intros t ?%elem_of_nil|].
  destruct (py_max_le (id u) (id <$> l)) as [H1 H2].
  intros t [->|Ht]%elem_of_cons; [lia|].
  specialize (H2 (id t) (list_elem_of_fmap_2 id l t Ht)). lia.
Qed.

(** X13. [add_task] stores the title and the description as they are
    given, blank or long as they may be, in a new Pending task at the end
    of the list; its id is 1 in an empty list and one more than the greatest
    id otherwise, above every id of the list. *)
Theorem manager_add_task (w : FileBacked.World) (s : state)
    (title description : string) :
  let r := add_task w title description s in
  let t := {| id := get_next_id s; title := title; description := description;
              status := "Pending"; created_date := FileBacked.now w |} in
  tasks r.1 = tasks s ++ [t]
  ∧ (∀ u, u ∈ tasks s → id u < id t)
  ∧ (tasks s = [] → id t = 1)
  ∧ (∀ u, u ∈ tasks s → (∀ v, v ∈ tasks s → id v ≤ id u) → id t = id u + 1).
Proof.
  intros r t. assert (Hl : tasks r.1 = tasks s ++ [t]).
  { subst r. unfold add_task. by rewrite save_tasks_tasks. }
  pose proof (get_next_id_above s) as Habove.
  split; [done|]. split; [done|]. split.
  - intros E. subst t. unfold get_next_id. by rewrite E.
  - intros u Hu Hmax. cbn. unfold get_next_id.
    destruct (tasks s) as [|a l] eqn:E; [by apply elem_of_nil in Hu|].
    pose proof (py_max_elem (id a) (id <$> l)) as Hin.
    pose proof (py_max_le (id a) (id <$> l)) as [H1 H2].
    change (id a :: (id <$> l)) with (id <$> a :: l) in Hin.
    apply list_elem_of_fmap in Hin as (v & Hv & Hvin).
    specialize (Hmax v Hvin).
    assert (id u ≤ FileBacked.TaskRepository.py_max (id a) (id <$> l)).
    { apply elem_of_cons in Hu as [->|Hu]; [done|].
      apply H2. by apply list_elem_of_fmap_2. }
    lia.
Qed.

(** X14. [delete_task] takes out every record with the id, however many
    there are, and keeps the others in their order; the file is written
    again even when no record had the id. *)
Theorem manager_delete_task (w : FileBacked.World) (s : state) (i : Z) :
  let r := delete_task w i s in
  (∀ t, t ∈ tasks r.1 ↔ t ∈ tasks s ∧ id t ≠ i)
  ∧ (tasks r.1) `sublist_of` (tasks s)
  ∧ (i ∉ id <$> tasks r.1)
  ∧ (i ∉ id <$> tasks s → tasks r.1 = tasks s)
  ∧ (FileBacked.write_error w = None →
       r.2 = Finished ∧ file r.1 = Some (Some (tasks r.1))).
Proof.
  intros r.
  assert (Hl : tasks r.1 = filter (λ t, id t ≠ i) (tasks s)).
  { subst r. unfold delete_task. by rewrite save_tasks_tasks. }
  rewrite Hl. split; [|split; [|split; [|split]]].
  - intros t. rewrite list_elem_of_filter. tauto.
  - apply sublist_filter.
  - intros (t & -> & Ht)%list_elem_of_fmap.
    apply list_elem_of_filter in Ht as [Ht _]. done.
  - clear. intros Hi. induction (tasks s) as [|t l IH]; [done|].
    rewrite fmap_cons in Hi. apply not_elem_of_cons in Hi as [Ht Hi].
    rewrite filter_cons_True by (intros ?; congruence). by rewrite IH.
  - intros Hw. subst r. unfold delete_task, save_tasks. by rewrite Hw.
Qed.

Lemma on_first_ids (i : Z) (f : task → task) (l : list task) :
  (∀ t, id (f t) = id t) → id <$> on_first i f l = id <$> l.
Proof.
  intros Hf. induction l as [|t l IH]; [done|]. cbn [on_first].
  case_bool_decide; rewrite !fmap_cons; [by rewrite Hf | by rewrite IH].
Qed.

Lemma on_first_absent (i : Z) (f : task → task) (l : list task) :
  i ∉ id <$> l → on_first i f l = l.
Proof.
  induction l as [|t l IH]; [done|]. rewrite fmap_cons.
  intros [Ht Hi]%not_elem_of_cons. cbn [on_first].
  rewrite bool_decide_false by congruence. by rewrite IH.
Qed.

Lemma on_first_twice (i : Z) (f : task → task) (l : list task) :
  (∀ t, id (f t) = id t) → (∀ t, f (f t) = f t) →
  on_first i f (on_first i f l) = on_first i f l.
Proof.
  intros Hid Hf. induction l as [|t l IH]; [done|]. cbn [on_first].
  case_bool_decide as E; cbn [on_first].
  - rewrite bool_decide_true by (by rewrite Hid). by rewrite Hf.
  - rewrite bool_decide_false by done. by rewrite IH.
Qed.

(** X15. [mark_complete] may be repeated: a second call leaves the list
    as the first left it.  A call changes no id, so it keeps ids distinct,
    and on an id no record has it changes nothing in the list. *)
Theorem manager_mark_complete_twice (w1 w2 : FileBacked.World) (s : state) (i : Z) :
  let s1 := (mark_complete w1 i s).1 in
  tasks (mark_complete w2 i s1).1 = tasks s1
  ∧ id <$> tasks s1 = id <$> tasks s
  ∧ length (tasks s1) = length (tasks s)
  ∧ (i ∉ id <$> tasks s → tasks s1 = tasks s)
  ∧ (∀ t, t ∈ tasks s1 → id t = i → t ∈ tasks s ∨ status t = "Completed").
Proof.
  intros s1. set (f := λ t : task, {| id := id t; title := title t;
                        description := description t; status := "Completed";
                        created_date := created_date t |}).
  assert (H1 : tasks s1 = on_first i f (tasks s)).
  { subst s1. unfold mark_complete. by rewrite save_tasks_tasks. }
  assert (Hids : id <$> tasks s1 = id <$> tasks s).
  { rewrite H1. by apply on_first_ids. }
  split; [|split; [done|split; [|split]]].
  - unfold mark_complete. rewrite save_tasks_tasks. cbn [tasks].
    fold f. rewrite H1. by apply on_first_twice.
  - by rewrite <- (length_fmap id), Hids, length_fmap.
  - intros Hi. rewrite H1. by apply on_first_absent.
  - rewrite H1. clear. induction (tasks s) as [|u l IH]; [by intros t ?%elem_of_nil|].
    cbn [on_first]. intros t. case_bool_decide as E.
    + intros [->|Ht]%elem_of_cons Hid; [by right|].
      left. apply elem_of_cons. by right.
    + intros [->|Ht]%elem_of_cons Hid.
      * left. apply elem_of_cons. by left.
      * destruct (IH t Ht Hid) as [?|?]; [left|by right].
        apply elem_of_cons. by right.
Qed.

Lemma on_first_present (i : Z) (f : task → task) (l : list task) :
  i ∈ id <$> l → ∃ t, t ∈ l ∧ id t = i ∧ f t ∈ on_first i f l.
Proof.
  induction l as [|u l IH]; [by intros ?%elem_of_nil|].
  rewrite fmap_cons. cbn [on_first]. intros Hi. case_bool_decide as E.
  - exists u. split; [apply elem_of_cons; by left|].
    split; [done|]. apply elem_of_cons. by left.
  - apply elem_of_cons in Hi as [->|Hi]; [done|].
    destruct (IH Hi) as (t & Ht & Hid & Hf). exists t.
    split; [apply elem_of_cons; by right|].
    split; [done|]. apply elem_of_cons. by right.
Qed.

Lemma search_tasks_filter (keyword : string) (status_filter : option string)
    (l : list task) (t : task) :
  t ∈ Legacy.search_tasks keyword status_filter l ↔
  t ∈ l
  ∧ (Py.contains (Py.lower keyword) (Py.lower (title t))
     || Py.contains (Py.lower keyword) (Py.lower (description t)))
    && match status_filter with
       | None => true
       | Some st => bool_decide (status t = st)
       end = true.
Proof.
  unfold Legacy.search_tasks.
  rewrite search_loop_filter, list_elem_of_filter. tauto.
Qed.

(** X16. After [edit_task] on a live id, a search for the new title, in
    any letter case, finds a record with that id, the new title and the
    new description; ids, statuses and creation times are as before. *)
Theorem manager_edit_then_search (w : FileBacked.World) (s : state) (i : Z)
    (new_title new_description keyword : string) :
  i ∈ id <$> tasks s →
  Py.lower keyword = Py.lower new_title →
  let s1 := (edit_task w i new_title new_description s).1 in
  (∃ t, t ∈ search_tasks keyword None s1
        ∧ id t = i ∧ title t = new_title ∧ description t = new_description)
  ∧ id <$> tasks s1 = id <$> tasks s
  ∧ status <$> tasks s1 = status <$> tasks s
  ∧ created_date <$> tasks s1 = created_date <$> tasks s.
Proof.
  intros Hi Hk s1.
  set (f := λ t : task, {| id := id t; title := new_title;
                           description := new_description;
                           status := status t;
                           created_date := created_date t |}).
  assert (H1 : tasks s1 = on_first i f (tasks s)).
  { subst s1. unfold edit_task. by rewrite save_tasks_tasks. }
  split; [|split; [|split]].
  - destruct (on_first_present i f (tasks s) Hi) as (t & Ht & Hid & Hf).
    exists (f t). split; [|by repeat split].
    unfold search_tasks. apply search_tasks_filter. rewrite H1.
    split; [done|]. rewrite andb_true_r. apply orb_true_iff. left.
    apply contains_lower. by apply occurs_same_case.
  - rewrite H1. by apply on_first_ids.
  - rewrite H1. clear. induction (tasks s) as [|u l IH]; [done|].
    cbn [on_first]. case_bool_decide; rewrite !fmap_cons; [done|by rewrite IH].
  - rewrite H1. clear. induction (tasks s) as [|u l IH]; [done|].
    cbn [on_first]. case_bool_decide; rewrite !fmap_cons; [done|by rewrite IH].
Qed.

(** The empty text occurs in every text. *)
Lemma contains_empty (text : string) : Py.contains (Py.lower "") text = true.
Proof. unfold Py.contains. by destruct (Py.chars text). Qed.

(** X17. With an empty keyword the search gives every task, in order; with
    a status besides, every task of that status. *)
Theorem manager_search_empty_keyword (l : list task) (st : string) :
  Legacy.search_tasks "" None l = l
  ∧ Legacy.search_tasks "" (Some st) l = filter (λ t, status t = st) l.
Proof.
  unfold Legacy.search_tasks. rewrite !search_loop_filter.
  pose proof contains_empty as Hc.
  split.
  - induction l as [|t l IH]; [done|].
    rewrite filter_cons_True; [by rewrite IH|]. by rewrite Hc.
  - apply list_filter_iff. intros t. rewrite Hc. cbn.
    by rewrite bool_decide_eq_true.
Qed.

(** X18. The four methods that change the list keep ids distinct:
    [add_task] by its choice of the id, [delete_task] by taking tasks out
    only, [mark_complete] and [edit_task] by leaving ids alone. *)
Theorem manager_keeps_ids_distinct (w : FileBacked.World) (s : state) :
  NoDup (id <$> tasks s) →
  (∀ title description,
     NoDup (id <$> tasks (add_task w title description s).1))
  ∧ (∀ i, NoDup (id <$> tasks (delete_task w i s).1))
  ∧ (∀ i, NoDup (id <$> tasks (mark_complete w i s).1))
  ∧ (∀ i new_title new_description,
       NoDup (id <$> tasks (edit_task w i new_title new_description s).1)).
Proof.
  intros Hd. split; [|split; [|split]].
  - intros title description. unfold add_task. rewrite save_tasks_tasks.
    cbn [tasks]. rewrite fmap_app. apply NoDup_app. split; [done|]. split.
    + intros i (u & -> & Hu)%list_elem_of_fmap [E|[]%elem_of_nil]%elem_of_cons.
      pose proof (get_next_id_above s u Hu). cbn in E. lia.
    + apply NoDup_singleton.
  - intros i. unfold delete_task. rewrite save_tasks_tasks. cbn [tasks].
    eapply sublist_NoDup; [exact Hd|]. apply fmap_sublist, sublist_filter.
  - intros i. unfold mark_complete. rewrite save_tasks_tasks. cbn [tasks].
    by rewrite on_first_ids.
  - intros i new_title new_description. unfold edit_task.
    rewrite save_tasks_tasks. cbn [tasks]. by rewrite on_first_ids.
Qed.
End TaskManagerFacts.

(** ** The window *)

Section TaskManagerGUIFacts.
Import Legacy TaskManagerGUI TaskManagerNotions.

(** What [int(task_str.split(']')[0][1:])] makes of a line of the list
    box. *)
Lemma line_id (t : task) : id_of_line (display t) = Some (id t).
Proof.
  unfold id_of_line, display, PyFormat.str_of_int.
  rewrite !chars_app, chars_str.
  change (Py.chars "[") with ["["%char].
  change (Py.chars "] ") with ["]"%char; " "%char].
  cbn [app].
  rewrite (app_comm_cons (PyFormat.str_of_int_chars (id t)) _ "["%char).
  rewrite before_app.
  - cbn [drop]. apply int_str_of_int.
  - constructor; [done|]. eapply Forall_impl; [apply str_of_int_plain|].
    by intros c [_ ?].
Qed.

(** X19. The id read back from a line of the list box is the id of the
    task the line shows, whatever its title and status hold, brackets
    included. *)
Theorem id_of_line_display (t : task) : id_of_line (display t) = Some (id t).
Proof. apply line_id. Qed.

Lemma first_with_id_present (i : Z) (l : list task) :
  i ∈ id <$> l → ∃ u, first_with_id i l = Some u ∧ u ∈ l ∧ id u = i.
Proof.
  unfold first_with_id. induction l as [|a l IH]; [by intros ?%elem_of_nil|].
  rewrite fmap_cons. intros Hi. destruct (decide (id a = i)) as [E|E].
  - exists a. rewrite filter_cons_True by done.
    split; [done|]. split; [apply elem_of_cons; by left | done].
  - apply elem_of_cons in Hi as [->|Hi]; [done|].
    destruct (IH Hi) as (u & Hu & Hin & Hid). exists u.
    rewrite filter_cons_False by done.
    split; [done|]. split; [apply elem_of_cons; by right | done].
Qed.

Lemma first_with_id_unique (l : list task) (t : task) :
  NoDup (id <$> l) → t ∈ l → first_with_id (id t) l = Some t.
Proof.
  unfold first_with_id. induction l as [|a l IH]; [by intros _ ?%elem_of_nil|].
  rewrite fmap_cons. intros [Ha Hd]%NoDup_cons [->|Ht]%elem_of_cons.
  - by rewrite filter_cons_True.
  - rewrite filter_cons_False; [by apply IH|].
    intros E. apply Ha. rewrite E. by apply list_elem_of_fmap_2.
Qed.

Lemma search_tasks_subset (keyword : string) (status_filter : option string)
    (l : list task) (t : task) :
  t ∈ Legacy.search_tasks keyword status_filter l → t ∈ l.
Proof. intros H. by apply search_tasks_filter in H as [? _]. Qed.

(** Line [n] of the list box, once selected. *)
Lemma selected_line (g : gui) (n : nat) (t : task) :
  shown g !! n = Some t →
  let g1 := select n (load_tasks g) in
  task_listbox g1 !! n = Some (display t)
  ∧ get_selected_task_id g1 = Id (id t)
  ∧ t ∈ TaskManager.tasks (task_manager g).
Proof.
  intros Hn g1.
  assert (Hline : task_listbox g1 !! n = Some (display t)).
  { subst g1. cbn. fold (shown g). by rewrite list_lookup_fmap, Hn. }
  split; [done|]. split.
  - unfold get_selected_task_id.
    change (curselection g1) with (Some n). cbv beta iota.
    rewrite Hline. change (default "" (Some (display t))) with (display t).
    by rewrite line_id.
  - apply list_elem_of_lookup_2 in Hn. by apply search_tasks_subset in Hn.
Qed.

(** X20. After [load_tasks] the lines of the list box stand for the tasks
    the search gives, one for one: selecting line [n] selects the id of the
    [n]th of them, and the description box then shows the description of
    the first task of the manager with that id, which is that task itself
    where ids are distinct. *)
Theorem gui_selection_identifies (g : gui) (n : nat) (t : task) :
  shown g !! n = Some t →
  let g1 := select n (load_tasks g) in
  length (task_listbox g1) = length (shown g)
  ∧ get_selected_task_id g1 = Id (id t)
  ∧ ∃ u,
      first_with_id (id t) (TaskManager.tasks (task_manager g)) = Some u
      ∧ show_description g1
        = Some {| task_manager := task_manager g1;
                  search_entry := search_entry g1;
                  status_var := status_var g1;
                  task_listbox := task_listbox g1;
                  curselection := Some n;
                  description_text := description u |}
      ∧ (NoDup (id <$> TaskManager.tasks (task_manager g)) → u = t).
Proof.
  intros Hn g1.
  destruct (selected_line g n t Hn) as (Hline & Hsel & Hin).
  fold g1 in Hline, Hsel.
  assert (Hlen : length (task_listbox g1) = length (shown g)).
  { subst g1. cbn. fold (shown g). by rewrite length_fmap. }
  assert (Hcur : curselection g1 = Some n) by done.
  assert (Hman : task_manager g1 = task_manager g) by done.
  clearbody g1. split; [done|]. split; [done|].
  destruct (first_with_id_present (id t) (TaskManager.tasks (task_manager g)))
    as (u & Hu & _ & _); [by apply list_elem_of_fmap_2|].
  exists u. split; [done|]. split.
  - unfold show_description. rewrite Hcur, Hline.
    change (default "" (Some (display t))) with (display t).
    rewrite line_id. cbn [mbind option_bind]. by rewrite Hman, Hu.
  - intros Hd. rewrite (first_with_id_unique _ t Hd Hin) in Hu. congruence.
Qed.

(** X21. [delete_task] on a selected line takes every task with the id of
    that line out of the manager and fills the list box again, in which no
    line then carries that id; but it does nothing at all when that id is
    0. *)
Theorem gui_delete_task (w : FileBacked.World) (g : gui) (n : nat) (t : task) :
  shown g !! n = Some t →
  let g1 := select n (load_tasks g) in
  (id t = 0 → delete_task w g1 = (g1, Returns))
  ∧ (id t ≠ 0 → FileBacked.write_error w = None →
       ∃ g2, delete_task w g1 = (g2, Returns)
         ∧ TaskManager.tasks (task_manager g2)
           = filter (λ u, id u ≠ id t) (TaskManager.tasks (task_manager g))
         ∧ curselection g2 = None
         ∧ ∀ line, line ∈ task_listbox g2 → id_of_line line ≠ Some (id t)).
Proof.
  intros Hn g1.
  destruct (selected_line g n t Hn) as (_ & Hsel & _).
  fold g1 in Hsel. unfold delete_task. rewrite Hsel. split.
  - intros E. by rewrite bool_decide_true.
  - intros E Hw. rewrite bool_decide_false by done.
    unfold TaskManager.delete_task, TaskManager.save_tasks. rewrite Hw.
    cbn [then_reload]. eexists. split; [reflexivity|].
    split; [done|]. split; [done|].
    intros line Hline. cbn in Hline.
    apply list_elem_of_fmap in Hline as (u & -> & Hu).
    rewrite line_id. apply search_tasks_subset in Hu. cbn in Hu.
    apply list_elem_of_filter in Hu as [Hu _]. congruence.
Qed.

(** X22. [add_task] with a title that is not empty adds the task whatever
    the second dialog gives: Cancel there leaves the description empty.
    The list box is filled again and nothing is selected; with an empty
    search box and every status it shows the tasks of the manager, the new
    one last. *)
Theorem gui_add_task (w : FileBacked.World) (g : gui) (title : string)
    (desc : option string) :
  title ≠ "" → FileBacked.write_error w = None →
  let t := {| id := TaskManager.get_next_id (task_manager g); title := title;
              description := default "" desc; status := "Pending";
              created_date := FileBacked.now w |} in
  ∃ g2, add_task w (Some title) desc g = (g2, Returns)
    ∧ TaskManager.tasks (task_manager g2)
      = TaskManager.tasks (task_manager g) ++ [t]
    ∧ curselection g2 = None ∧ description_text g2 = ""
    ∧ (search_entry g = "" → status_var g = "All" →
         task_listbox g2
         = display <$> (TaskManager.tasks (task_manager g) ++ [t])).
Proof.
  intros Ht Hw t. unfold add_task.
  assert (Py.falsy title = false) as -> by (by destruct title).
  unfold TaskManager.add_task, TaskManager.save_tasks. rewrite Hw.
  cbn [then_reload]. eexists. split; [reflexivity|].
  split; [done|]. split; [done|]. split; [done|].
  intros Hk Hs. cbn. rewrite Hk, Hs. cbn. f_equal.
  unfold TaskManager.search_tasks, Legacy.search_tasks. cbn [TaskManager.tasks].
  rewrite search_loop_filter. fold t.
  generalize (TaskManager.tasks (task_manager g) ++ [t]). intros l.
  induction l as [|u l IH]; [done|].
  rewrite filter_cons_True; [by rewrite IH|]. by rewrite contains_empty.
Qed.

(** Where ids are distinct, [on_first] touches the one task with the id. *)
Lemma on_first_unique (i : Z) (f : task → task) (l : list task) (t : task) :
  NoDup (id <$> l) → t ∈ l → id t = i →
  f t ∈ TaskManager.on_first i f l
  ∧ ∀ u, u ∈ TaskManager.on_first i f l → u = f t ∨ (u ∈ l ∧ id u ≠ i).
Proof.
  induction l as [|a l IH]; [by intros _ ?%elem_of_nil|].
  rewrite fmap_cons. intros [Ha Hd]%NoDup_cons Ht Hid.
  cbn [TaskManager.on_first]. case_bool_decide as E.
  - assert (t = a) as ->.
    { apply elem_of_cons in Ht as [->|Ht]; [done|]. exfalso. apply Ha.
      rewrite E, <- Hid. by apply list_elem_of_fmap_2. }
    split; [apply elem_of_cons; by left|].
    intros u [->|Hu]%elem_of_cons; [by left|]. right.
    split; [apply elem_of_cons; by right|].
    intros Hu'. apply Ha. rewrite E, <- Hu'. by apply list_elem_of_fmap_2.
  - apply elem_of_cons in Ht as [->|Ht]; [done|].
    destruct (IH Hd Ht Hid) as [H1 H2].
    split; [apply elem_of_cons; by right|].
    intros u [->|Hu]%elem_of_cons.
    + right. split; [apply elem_of_cons; by left | done].
    + destruct (H2 u Hu) as [->|[? ?]]; [by left|]. right.
      split; [apply elem_of_cons; by right | done].
Qed.

(** X23. [mark_complete] on a selected line, where ids are distinct, sets
    the status of the task of that line and leaves the other tasks as they
    are; the list box is filled again, and while the status menu is on
    Pending the task is no longer in it. *)
Theorem gui_mark_complete (w : FileBacked.World) (g : gui) (n : nat) (t : task) :
  shown g !! n = Some t →
  id t ≠ 0 → FileBacked.write_error w = None →
  NoDup (id <$> TaskManager.tasks (task_manager g)) →
  let g1 := select n (load_tasks g) in
  let t' := {| id := id t; title := title t; description := description t;
               status := "Completed"; created_date := created_date t |} in
  ∃ g2, mark_complete w g1 = (g2, Returns)
    ∧ t' ∈ TaskManager.tasks (task_manager g2)
    ∧ (∀ u, u ∈ TaskManager.tasks (task_manager g2) →
         u = t' ∨ (u ∈ TaskManager.tasks (task_manager g) ∧ id u ≠ id t))
    ∧ curselection g2 = None
    ∧ (status_var g = "Pending" →
         ∀ line, line ∈ task_listbox g2 → id_of_line line ≠ Some (id t)).
Proof.
  intros Hn Hid Hw Hd g1 t'.
  destruct (selected_line g n t Hn) as (_ & Hsel & Hin).
  fold g1 in Hsel. unfold mark_complete. rewrite Hsel.
  rewrite bool_decide_false by done.
  unfold TaskManager.mark_complete, TaskManager.save_tasks. rewrite Hw.
  cbn [then_reload]. eexists. split; [reflexivity|].
  cbn [task_manager with_manager load_tasks TaskManager.tasks curselection
       task_listbox status_var search_entry select].
  set (f := λ u : task, {| id := id u; title := title u;
                           description := description u;
                           status := "Completed";
                           created_date := created_date u |}).
  destruct (on_first_unique (id t) f _ t Hd Hin eq_refl) as [H1 H2].
  split; [done|]. split; [done|]. split; [done|].
  intros Hs line Hline.
  change (status_var g1) with (status_var g) in Hline.
  change (task_manager g1) with (task_manager g) in Hline.
  rewrite Hs in Hline. cbn in Hline.
  apply list_elem_of_fmap in Hline as (u & -> & Hu).
  rewrite line_id. apply search_tasks_filter in Hu as [Hu Hst].
  cbn [TaskManager.tasks] in Hu.
  apply andb_true_iff in Hst as [_ Hst]. apply bool_decide_eq_true in Hst.
  destruct (H2 u Hu) as [->|[_ Hne]]; [done | congruence].
Qed.

(** X24. [edit_task] on a selected line, where ids are distinct: Cancel in
    the first dialog changes nothing; any other answer, the empty text
    included, becomes the title of the task of that line, and Cancel in the
    second dialog empties its description.  Its id, status and creation
    time stay, and so do the other tasks. *)
Theorem gui_edit_task (w : FileBacked.World) (g : gui) (n : nat) (t : task)
    (new_title : string) (new_desc : option string) :
  shown g !! n = Some t →
  id t ≠ 0 → FileBacked.write_error w = None →
  NoDup (id <$> TaskManager.tasks (task_manager g)) →
  let g1 := select n (load_tasks g) in
  let t' := {| id := id t; title := new_title;
               description := default "" new_desc;
               status := status t; created_date := created_date t |} in
  edit_task w None new_desc g1 = (g1, Returns)
  ∧ ∃ g2, edit_task w (Some new_title) new_desc g1 = (g2, Returns)
      ∧ t' ∈ TaskManager.tasks (task_manager g2)
      ∧ (∀ u, u ∈ TaskManager.tasks (task_manager g2) →
           u = t' ∨ (u ∈ TaskManager.tasks (task_manager g) ∧ id u ≠ id t))
      ∧ curselection g2 = None.
Proof.
  intros Hn Hid Hw Hd g1 t'.
  destruct (selected_line g n t Hn) as (_ & Hsel & Hin).
  fold g1 in Hsel. unfold edit_task. rewrite Hsel.
  rewrite bool_decide_false by done.
  change (task_manager g1) with (task_manager g).
  rewrite (first_with_id_unique _ t Hd Hin). split; [done|].
  unfold TaskManager.edit_task, TaskManager.save_tasks. rewrite Hw.
  cbn [then_reload]. eexists. split; [reflexivity|].
  cbn [task_manager with_manager load_tasks TaskManager.tasks curselection].
  set (f := λ u : task, {| id := id u; title := new_title;
                           description := default "" new_desc;
                           status := status u;
                           created_date := created_date u |}).
  destruct (on_first_unique (id t) f _ t Hd Hin eq_refl) as [H1 H2].
  split; [done|]. split; [done|]. done.
Qed.

(** X25. While the file cannot be written, [delete_task] and
    [mark_complete] on a selected line change the tasks of the manager and
    then leave with the error of the write, before the list box is filled
    again: the box keeps its lines and its selection, also the line of a
    task the manager no longer has. *)
Theorem gui_failed_write (w : FileBacked.World) (g : gui) (n : nat) (t : task)
    (cause : string) :
  shown g !! n = Some t →
  id t ≠ 0 → FileBacked.write_error w = Some cause →
  let g1 := select n (load_tasks g) in
  (∃ g2, delete_task w g1 = (g2, RaisesOSError cause)
     ∧ task_listbox g2 = task_listbox g1
     ∧ task_listbox g2 !! n = Some (display t)
     ∧ curselection g2 = Some n
     ∧ (t ∉ TaskManager.tasks (task_manager g2))
     ∧ TaskManager.tasks (task_manager g2)
       = filter (λ u, id u ≠ id t) (TaskManager.tasks (task_manager g)))
  ∧ (∃ g3, mark_complete w g1 = (g3, RaisesOSError cause)
       ∧ task_listbox g3 = task_listbox g1
       ∧ curselection g3 = Some n
       ∧ ∃ u, u ∈ TaskManager.tasks (task_manager g3)
              ∧ id u = id t ∧ status u = "Completed").
Proof.
  intros Hn Hid Hw g1.
  destruct (selected_line g n t Hn) as (Hline & Hsel & Hin).
  fold g1 in Hsel, Hline. split.
  - unfold delete_task. rewrite Hsel. rewrite bool_decide_false by done.
    unfold TaskManager.delete_task, TaskManager.save_tasks. rewrite Hw.
    cbn [then_reload]. eexists. split; [reflexivity|].
    split; [done|]. split; [done|]. split; [done|]. split; [|reflexivity].
    cbn [task_manager with_manager TaskManager.tasks].
    intros [H _]%list_elem_of_filter. done.
  - unfold mark_complete. rewrite Hsel. rewrite bool_decide_false by done.
    unfold TaskManager.mark_complete, TaskManager.save_tasks. rewrite Hw.
    cbn [then_reload]. eexists. split; [reflexivity|].
    split; [done|]. split; [done|].
    cbn [task_manager with_manager TaskManager.tasks].
    change (task_manager g1) with (task_manager g).
    destruct (on_first_present (id t)
                (λ u, {| id := id u; title := title u;
                         description := description u; status := "Completed";
                         created_date := created_date u |})
                (TaskManager.tasks (task_manager g)))
      as (u & _ & Hu & Hf); [by apply list_elem_of_fmap_2|].
    eexists. split; [exact Hf|]. by split.
Qed.
End TaskManagerGUIFacts.

(** ** The first version of the manager *)

Section TasksListFacts.
Import Legacy TasksList.

Lemma index_of_app_old (i : Z) (l l' : list task) :
  i ∈ id <$> l →
  ∃ k, index_of i (l ++ l') = Some k ∧ (k < length l)%nat.
Proof.
  induction l as [|a l IH]; [by intros ?%elem_of_nil|].
  rewrite fmap_cons. intros Hi. cbn [app index_of length].
  case_bool_decide as E.
  - exists 0%nat. split; [done | lia].
  - apply elem_of_cons in Hi as [->|Hi]; [done|].
    destruct (IH Hi) as (k & -> & Hk). exists (S k). split; [done | lia].
Qed.

Lemma delete_app_old (k : nat) (l l' : list task) :
  (k < length l)%nat → delete k (l ++ l') = delete k l ++ l'.
Proof.
  revert k. induction l as [|a l IH]; intros k; cbn [length]; [lia|].
  destruct k as [|k]; [done|]. intros Hk. cbn [app delete list_delete].
  f_equal. apply IH. lia.
Qed.

(** X26. In the first version an id can come back while it is in use:
    after [add_task], [delete_task] of an older task and [add_task] again,
    the last two tasks of the list carry the same id, the length of the
    list they were added to plus one. *)
Theorem first_version_repeats_id (w1 w2 w3 : FileBacked.World)
    (s : TaskManager.state) (i : Z)
    (title description title' description' : string) :
  i ∈ id <$> TaskManager.tasks s →
  let s1 := (add_task w1 title description s).1 in
  let s2 := (delete_task w2 i s1).1 in
  let s3 := (add_task w3 title' description' s2).1 in
  length (TaskManager.tasks s2) = length (TaskManager.tasks s)
  ∧ (∃ rest a b,
       TaskManager.tasks s3 = rest ++ [a; b]
       ∧ id a = Z.of_nat (length (TaskManager.tasks s)) + 1
       ∧ id b = id a
       ∧ Legacy.title a = title ∧ Legacy.title b = title')
  ∧ ¬ NoDup (id <$> TaskManager.tasks s3).
Proof.
  intros Hi s1 s2 s3.
  set (a := {| id := Z.of_nat (length (TaskManager.tasks s)) + 1;
               title := title; description := description;
               status := "Pending"; created_date := FileBacked.now w1 |}).
  assert (H1 : TaskManager.tasks s1 = TaskManager.tasks s ++ [a]).
  { subst s1. unfold add_task. by rewrite save_tasks_tasks. }
  destruct (index_of_app_old i (TaskManager.tasks s) [a] Hi) as (k & Hk & Hlt).
  assert (H2 : TaskManager.tasks s2 = delete k (TaskManager.tasks s) ++ [a]).
  { subst s2. unfold delete_task. rewrite H1, Hk, save_tasks_tasks.
    cbn [TaskManager.tasks]. by apply delete_app_old. }
  assert (Hlen : length (TaskManager.tasks s2) = length (TaskManager.tasks s)).
  { rewrite H2, length_app, length_delete.
    - cbn [length]. lia.
    - by apply lookup_lt_is_Some_2. }
  set (b := {| id := Z.of_nat (length (TaskManager.tasks s2)) + 1;
               title := title'; description := description';
               status := "Pending"; created_date := FileBacked.now w3 |}).
  assert (H3 : TaskManager.tasks s3
               = delete k (TaskManager.tasks s) ++ [a; b]).
  { subst s3. unfold add_task. rewrite save_tasks_tasks.
    cbn [TaskManager.tasks]. fold b. rewrite H2, <- app_assoc. done. }
  assert (Hab : id b = id a) by (cbn; by rewrite Hlen).
  split; [done|]. split.
  - exists (delete k (TaskManager.tasks s)), a, b. by repeat split.
  - rewrite H3, fmap_app. intros (_ & _ & Hd)%NoDup_app.
    cbn in Hd. apply NoDup_cons in Hd as [Hd _]. apply Hd.
    apply elem_of_cons. left. by rewrite Hlen.
Qed.
End TasksListFacts.

(** ** The two searches *)

Section SearchFacts.
Import FileBacked FileBacked.TaskRepository FileBackedNotions FileBackedMore.

(** X27. For a keyword that is not blank the search of the service gives
    the records the search of the dict-based manager gives for the trimmed
    keyword and no status, in the same order; the store is not touched. *)
Theorem service_search_as_manager_search (keyword : string) (s : state) :
  ¬ blank keyword →
  ∃ l, TaskService.search_tasks keyword s = (s, Returned l)
    ∧ as_task <$> l
      = Legacy.search_tasks (Py.strip keyword) None (as_task <$> tasks s).
Proof.
  intros E%blank_test_false. unfold TaskService.search_tasks. rewrite E.
  unfold get_all_tasks, read_tasks, mbind, mret, M_bind, M_ret.
  eexists. split; [reflexivity|].
  unfold Legacy.search_tasks. rewrite strip_lower.
  generalize (Py.lower (Py.strip keyword)). intros k.
  induction (tasks s) as [|t l IH]; [done|].
  rewrite fmap_cons. cbn [Legacy.search_loop].
  change (Legacy.title (as_task t)) with (title t).
  change (Legacy.description (as_task t)) with (description t).
  destruct (Py.contains k (Py.lower (title t))
            || Py.contains k (Py.lower (description t))) eqn:Hc.
  - rewrite filter_cons_True by (by rewrite Hc).
    rewrite fmap_cons. by rewrite IH.
  - rewrite filter_cons_False by (rewrite Hc; intros []). done.
Qed.
End SearchFacts.

(** ** The further properties on the sample data *)

Section MoreExamples.
Import FileBacked FileBacked.TaskRepository FileBackedNotions FileBackedMore.
Import Sample SampleMore.

Ltac decided := apply (bool_decide_unpack _); vm_compute; exact I.

Lemma delete_task_then_find_witness :
  live 1 two_tasks ∧ unique_ids two_tasks
  ∧ tasks (TaskService.delete_task noon (Py.Text "1") two_tasks).1
    = filter (λ t, task_id t ≠ 1) (tasks two_tasks).
Proof.
  assert (H1 : live 1 two_tasks) by (apply elem_of_cons; by left).
  assert (H2 : unique_ids two_tasks) by decided.
  split; [exact H1|]. split; [exact H2|].
  exact (proj1 (delete_task_then_find noon two_tasks (Py.Text "1") 1
                  eq_refl H1 H2)).
Defined.

Lemma absent_id_no_write_witness :
  (¬ live 7 two_tasks)
  ∧ update_task disk_full (init noon 7 "Call Ana" "Today" None None) two_tasks
    = (two_tasks, Returned false)
  ∧ delete_task disk_full 7 two_tasks = (two_tasks, Returned None).
Proof.
  assert (H : ¬ live 7 two_tasks) by (unfold live, ids; cbn; decided).
  split; [exact H|].
  exact (absent_id_no_write disk_full two_tasks
           (init noon 7 "Call Ana" "Today" None None) 7 H eq_refl).
Defined.

Lemma update_task_replaces_witness :
  live 1 two_tasks
  ∧ ∃ n, index_of 1 (tasks two_tasks) = Some n
      ∧ tasks (update_task noon (set_status "Completed" milk) two_tasks).1
        = <[n := set_status "Completed" milk]> (tasks two_tasks).
Proof.
  assert (H : live 1 two_tasks) by (apply elem_of_cons; by left).
  split; [exact H|].
  destruct (update_task_replaces noon two_tasks (set_status "Completed" milk) H)
    as (n & H1 & H2 & _).
  exists n. split; [exact H1 | exact H2].
Defined.

Lemma successful_write_mirrors_witness :
  write_error noon = None
  ∧ mirrored (add_task noon "Call Ana" "Today" two_tasks).1.
Proof.
  split; [reflexivity|].
  exact (proj1 (successful_write_mirrors noon two_tasks eq_refl)
           "Call Ana" "Today").
Defined.

Lemma failed_write_keeps_change_witness :
  write_error disk_full = Some "No space left on device"
  ∧ (add_task disk_full "Call Ana" "Today" two_tasks).2
    = Raised (Failed "save tasks" "No space left on device")
  ∧ length (tasks (add_task disk_full "Call Ana" "Today" two_tasks).1)
    = S (length (tasks two_tasks)).
Proof.
  split; [reflexivity|].
  exact (proj1 (failed_write_keeps_change disk_full two_tasks
                  "No space left on device" eq_refl) "Call Ana" "Today").
Defined.

Lemma restart_restores_witness :
  mirrored two_tasks
  ∧ file (load_tasks disk_full (file two_tasks)) = file two_tasks
  ∧ length (tasks (load_tasks disk_full (file two_tasks)))
    = length (tasks two_tasks).
Proof.
  assert (H : mirrored two_tasks) by reflexivity.
  split; [exact H|].
  destruct (restart_restores disk_full two_tasks H) as (_ & H1 & H2 & _).
  split; [exact H1 | exact H2].
Defined.

Lemma malformed_entry_empties_store_witness :
  delete "status" (to_dict report) ∈ damaged_file
  ∧ delete "status" (to_dict report) !! "status" = None
  ∧ tasks (load_tasks noon (Some damaged_file)) = []
  ∧ file (load_tasks noon (Some damaged_file)) = Some damaged_file.
Proof.
  assert (H1 : delete "status" (to_dict report) ∈ damaged_file).
  { apply elem_of_cons. right. apply elem_of_cons. by left. }
  assert (H2 : delete "status" (to_dict report) !! "status" = None)
    by apply lookup_delete_eq.
  assert (H3 : "status" ∈ ["id"; "title"; "description"; "status"; "created_date"])
    by decided.
  split; [exact H1|]. split; [exact H2|].
  destruct (malformed_entry_empties_store noon noon damaged_file _ "status"
              H1 H3 H2) as (Ha & Hb & _).
  split; [exact Ha | exact Hb].
Defined.

Lemma service_keeps_records_tidy_witness :
  service_reachable (TaskService.add_task noon " Buy milk " "Get 2% milk" empty).1
  ∧ all_records tidy
      (TaskService.add_task noon " Buy milk " "Get 2% milk" empty).1.
Proof.
  assert (H : service_reachable
                (TaskService.add_task noon " Buy milk " "Get 2% milk" empty).1).
  { eapply service_next; [apply (service_new noon) | apply service_add]. }
  split; [exact H|]. exact (service_keeps_records_tidy _ H).
Defined.

Lemma reachable_ids_positive_witness :
  reachable (update_task noon (set_status "Completed" milk)
               (add_task noon "Buy milk" "Get 2% milk" empty).1).1
  ∧ all_records positive_id
      (update_task noon (set_status "Completed" milk)
         (add_task noon "Buy milk" "Get 2% milk" empty).1).1.
Proof.
  assert (H : reachable
                (update_task noon (set_status "Completed" milk)
                   (add_task noon "Buy milk" "Get 2% milk" empty).1).1).
  { eapply reachable_step; [|apply step_repo_update].
    eapply reachable_step; [apply (reachable_new noon) | apply step_repo_add]. }
  split; [exact H|]. exact (reachable_ids_positive _ H).
Defined.

Lemma mark_complete_only_status_witness :
  live 1 two_tasks
  ∧ ∃ n, index_of 1 (tasks two_tasks) = Some n
      ∧ length (tasks (TaskService.mark_complete noon (Py.Text "1") two_tasks).1)
        = length (tasks two_tasks).
Proof.
  assert (H : live 1 two_tasks) by (apply elem_of_cons; by left).
  split; [exact H|].
  destruct (mark_complete_only_status noon two_tasks (Py.Text "1") 1 eq_refl H)
    as (n & H1 & H2 & _).
  exists n. split; [exact H1 | exact H2].
Defined.

Lemma to_dict_drops_microseconds_witness :
  Relational.created_date fresh_row = Relational.Moment fresh_time
  ∧ Datetime.valid fresh_time = true ∧ 1000 ≤ Datetime.year fresh_time
  ∧ Relational.from_dict row_time (Relational.to_dict fresh_row) = Some row
  ∧ Relational.to_dict row = Relational.to_dict fresh_row.
Proof.
  assert (H : 1000 ≤ Datetime.year fresh_time) by (cbn; lia).
  split; [reflexivity|]. split; [reflexivity|]. split; [exact H|].
  destruct (to_dict_drops_microseconds row_time fresh_row fresh_time
              eq_refl eq_refl H) as (H1 & H2 & _).
  split; [exact H1 | exact H2].
Defined.

Lemma service_search_as_manager_search_witness :
  (¬ blank " Milk ")
  ∧ ∃ l, TaskService.search_tasks " Milk " two_tasks = (two_tasks, Returned l)
      ∧ as_task <$> l
        = Legacy.search_tasks (Py.strip " Milk ") None
            (as_task <$> tasks two_tasks).
Proof.
  assert (H : ¬ blank " Milk ") by (apply blank_test_false; reflexivity).
  split; [exact H|].
  exact (service_search_as_manager_search " Milk " two_tasks H).
Defined.
End MoreExamples.

Section ManagerExamples.
Import Legacy TaskManager TaskManagerNotions Sample SampleMore.

Ltac decided := apply (bool_decide_unpack _); vm_compute; exact I.

Lemma manager_edit_then_search_witness :
  1 ∈ id <$> tasks manager
  ∧ Py.lower "BUY OAT MILK" = Py.lower "Buy oat milk"
  ∧ ∃ t, t ∈ search_tasks "BUY OAT MILK" None
               (edit_task noon 1 "Buy oat milk" "One litre" manager).1
         ∧ id t = 1 ∧ title t = "Buy oat milk"
         ∧ description t = "One litre".
Proof.
  assert (H : 1 ∈ id <$> tasks manager) by (apply elem_of_cons; by left).
  split; [exact H|]. split; [reflexivity|].
  exact (proj1 (manager_edit_then_search noon manager 1 "Buy oat milk"
                  "One litre" "BUY OAT MILK" H eq_refl)).
Defined.

Lemma manager_keeps_ids_distinct_witness :
  NoDup (id <$> tasks manager)
  ∧ NoDup (id <$> tasks (add_task disk_full "" "" manager).1).
Proof.
  assert (H : NoDup (id <$> tasks manager)) by decided.
  split; [exact H|].
  exact (proj1 (manager_keeps_ids_distinct disk_full manager H) "" "").
Defined.

Lemma first_version_repeats_id_witness :
  1 ∈ id <$> tasks manager
  ∧ length (tasks (TasksList.delete_task noon 1
                     (TasksList.add_task noon "Call Ana" "Today" manager).1).1)
    = length (tasks manager)
  ∧ ¬ NoDup (id <$> tasks
               (TasksList.add_task noon "Pay rent" "By Friday"
                  (TasksList.delete_task noon 1
                     (TasksList.add_task noon "Call Ana" "Today"
                        manager).1).1).1).
Proof.
  assert (H : 1 ∈ id <$> tasks manager) by (apply elem_of_cons; by left).
  split; [exact H|].
  destruct (first_version_repeats_id noon noon noon manager 1
              "Call Ana" "Today" "Pay rent" "By Friday" H) as (H1 & _ & H2).
  split; [exact H1 | exact H2].
Defined.
End ManagerExamples.

Section WindowExamples.
Import Legacy TaskManagerGUI TaskManagerNotions Sample SampleMore.

Ltac decided := apply (bool_decide_unpack _); vm_compute; exact I.

Lemma gui_selection_identifies_witness :
  shown window !! 0%nat = Some legacy_milk
  ∧ length (task_listbox (select 0 (load_tasks window))) = length (shown window)
  ∧ get_selected_task_id (select 0 (load_tasks window)) = Id 1.
Proof.
  assert (H : shown window !! 0%nat = Some legacy_milk) by reflexivity.
  split; [exact H|].
  destruct (gui_selection_identifies window 0 legacy_milk H) as (H1 & H2 & _).
  split; [exact H1 | exact H2].
Defined.

Lemma gui_delete_task_witness :
  shown window !! 1%nat = Some legacy_report
  ∧ ∃ g2, delete_task noon (select 1 (load_tasks window)) = (g2, Returns)
      ∧ TaskManager.tasks (task_manager g2)
        = filter (λ u, id u ≠ 2) (TaskManager.tasks manager)
      ∧ curselection g2 = None
      ∧ ∀ line, line ∈ task_listbox g2 → id_of_line line ≠ Some 2.
Proof.
  assert (H : shown window !! 1%nat = Some legacy_report) by reflexivity.
  split; [exact H|].
  apply (proj2 (gui_delete_task noon window 1 legacy_report H)).
  - discriminate.
  - reflexivity.
Defined.

Lemma gui_add_task_witness :
  "Call Ana" ≠ ""
  ∧ FileBacked.write_error noon = None
  ∧ ∃ g2, add_task noon (Some "Call Ana") None window = (g2, Returns)
      ∧ TaskManager.tasks (task_manager g2)
        = TaskManager.tasks manager
          ++ [{| id := 3; title := "Call Ana"; description := "";
                 status := "Pending"; created_date := FileBacked.now noon |}]
      ∧ curselection g2 = None ∧ description_text g2 = ""
      ∧ (search_entry window = "" → status_var window = "All" →
           task_listbox g2
           = display <$>
               (TaskManager.tasks manager
                ++ [{| id := 3; title := "Call Ana"; description := "";
                       status := "Pending";
                       created_date := FileBacked.now noon |}])).
Proof.
  assert (H : "Call Ana" ≠ "") by discriminate.
  split; [exact H|]. split; [reflexivity|].
  exact (gui_add_task noon window "Call Ana" None H eq_refl).
Defined.

Lemma gui_mark_complete_witness :
  shown pending_window !! 0%nat = Some legacy_milk
  ∧ NoDup (id <$> TaskManager.tasks (task_manager pending_window))
  ∧ ∃ g2, mark_complete noon (select 0 (load_tasks pending_window))
          = (g2, Returns)
      ∧ task_listbox g2 = [].
Proof.
  assert (H1 : shown pending_window !! 0%nat = Some legacy_milk) by reflexivity.
  assert (H2 : NoDup (id <$> TaskManager.tasks (task_manager pending_window)))
    by decided.
  split; [exact H1|]. split; [exact H2|].
  destruct (gui_mark_complete noon pending_window 0 legacy_milk H1
              ltac:(discriminate) eq_refl H2) as (g2 & E & _).
  exists g2. split; [exact E|].
  injection E as <-. reflexivity.
Defined.

Lemma gui_edit_task_witness :
  shown window !! 0%nat = Some legacy_milk
  ∧ NoDup (id <$> TaskManager.tasks (task_manager window))
  ∧ edit_task noon None None (select 0 (load_tasks window))
    = (select 0 (load_tasks window), Returns)
  ∧ ∃ g2, edit_task noon (Some "") None (select 0 (load_tasks window))
          = (g2, Returns)
      ∧ {| id := 1; title := ""; description := ""; status := "Pending";
           created_date := "2025-03-01 09:30:00" |}
        ∈ TaskManager.tasks (task_manager g2).
Proof.
  assert (H1 : shown window !! 0%nat = Some legacy_milk) by reflexivity.
  assert (H2 : NoDup (id <$> TaskManager.tasks (task_manager window)))
    by decided.
  split; [exact H1|]. split; [exact H2|].
  destruct (gui_edit_task noon window 0 legacy_milk "" None H1
              ltac:(discriminate) eq_refl H2) as (Ha & g2 & Hb & Hc & _).
  split; [exact Ha|]. exists g2. split; [exact Hb | exact Hc].
Defined.

Lemma gui_failed_write_witness :
  shown window !! 0%nat = Some legacy_milk
  ∧ FileBacked.write_error disk_full = Some "No space left on device"
  ∧ ∃ g2, delete_task disk_full (select 0 (load_tasks window))
          = (g2, RaisesOSError "No space left on device")
      ∧ task_listbox g2 !! 0%nat = Some (display legacy_milk)
      ∧ (legacy_milk ∉ TaskManager.tasks (task_manager g2)).
Proof.
  assert (H : shown window !! 0%nat = Some legacy_milk) by reflexivity.
  split; [exact H|]. split; [reflexivity|].
  destruct (proj1 (gui_failed_write disk_full window 0 legacy_milk
                     "No space left on device" H ltac:(discriminate) eq_refl))
    as (g2 & E & _ & Hl & _ & Hm & _).
  exists g2. split; [exact E|]. split; [exact Hl | exact Hm].
Defined.
End WindowExamples.
